(** * effect-cloudflare: the R2 error mapping, the optional-result adapter
      and the environment resolver

    A shallow embedding of [src/internal/env.ts] (lines 1-81 of the source
    file) and of the two revisions of the R2 bucket module that follow it
    there (lines 82-1865 and 1866-3204), followed by the properties proved
    about them.  The definitions follow the TypeScript sources statement by
    statement; the JavaScript values the code inspects at run time
    ([unknown] errors, environment bindings) are modelled by [JsValue]. *)

From Stdlib Require Import ZArith String Ascii List Lia DecimalString.
From stdpp Require Import base option gmap strings fin_maps.

Set Warnings "-register-all".
Local Open Scope Z_scope.
Local Open Scope string_scope.

(** ** JavaScript values and the few primitives the sources use *)

Module Js.

(** Plain data as the code can observe it.  Numbers are the integers (the
    sources only compare numbers with integer literals, by [===]); an object
    is its property table, with inherited properties flattened into it; a
    function is opaque and carries its source text, which is what [String]
    prints. *)
Inductive JsValue : Type :=
| JUndefined
| JNull
| JBool (b : bool)
| JNum (n : Z)
| JStr (s : string)
| JFun (src : string)
| JObj (props : gmap string JsValue).

(** [typeof v === "object"]. *)
Definition typeof_object (v : JsValue) : bool :=
  match v with
  | JNull | JObj _ => true
  | _ => false
  end.

(** [v?.name], for a property name that no primitive wrapper defines
    ([message], [status], [code]). *)
Definition Get (v : JsValue) (name : string) : JsValue :=
  match v with
  | JObj props => default JUndefined (props !! name)
  | _ => JUndefined
  end.

(** [name in v], for [v] an object. *)
Definition HasProperty (v : JsValue) (name : string) : bool :=
  match v with
  | JObj props => bool_decide (is_Some (props !! name))
  | _ => false
  end.

(** [a ?? b]. *)
Definition nullish (a b : JsValue) : JsValue :=
  match a with
  | JUndefined | JNull => b
  | _ => a
  end.

(** [String(v)], for the values of the model.  An object is an ordinary
    object, one that inherits [Object.prototype.toString] unchanged; an
    object without a prototype, on which [String] raises, or one with a
    [toString] of its own is not a value of the model, and the statements
    below that need [String(error)] to return are stated for failures on
    which the code does not evaluate it or evaluates it on a primitive.  A
    number is printed in plain decimal, which is what JavaScript prints for
    the safe integers (below [2^53] in absolute value). *)
Definition ToString (v : JsValue) : string :=
  match v with
  | JUndefined => "undefined"
  | JNull => "null"
  | JBool true => "true"
  | JBool false => "false"
  | JNum n => NilZero.string_of_int (Z.to_int n)
  | JStr s => s
  | JFun src => src
  | JObj _ => "[object Object]"
  end.

(** [v === n] for a numeric literal [n]: no coercion, so only a number can
    be equal to it. *)
Definition strictEqNum (v : JsValue) (n : Z) : bool :=
  match v with
  | JNum m => Z.eqb m n
  | _ => false
  end.

(** [String.prototype.includes]: [search] occurs somewhere in [s]. *)
Fixpoint String_includes (s search : string) : bool :=
  String.prefix search s ||
  match s with
  | EmptyString => false
  | String _ rest => String_includes rest search
  end.

(** What a JavaScript expression can do besides returning: throw. *)
Inductive Exception : Type :=
| TypeError     (* calling a method the receiver does not have *)
| ParseError.   (* a Schema class constructor rejecting a field *)

Inductive Completion (A : Type) : Type :=
| Normal (a : A)
| Throw (e : Exception).
Arguments Normal {A} a.
Arguments Throw {A} e.

#[export] Instance Completion_ret : MRet Completion := fun _ a => Normal a.
#[export] Instance Completion_bind : MBind Completion := fun _ _ f m =>
  match m with
  | Normal a => f a
  | Throw e => Throw e
  end.

(** [a && b] and [a || b] on operands that may throw; the right operand is
    only evaluated when the left one does not decide. *)
Definition andC (a b : Completion bool) : Completion bool :=
  x ← a; if (x : bool) then b else mret false.
Definition orC (a b : Completion bool) : Completion bool :=
  x ← a; if (x : bool) then mret true else b.

(** [message.includes(search)]: only a string has the method. *)
Definition includes (message : JsValue) (search : string) : Completion bool :=
  match message with
  | JStr s => Normal (String_includes s search)
  | _ => Throw TypeError
  end.

(** A field declared [Schema.String]: the class constructor validates it. *)
Definition Schema_String (v : JsValue) : Completion string :=
  match v with
  | JStr s => Normal s
  | _ => Throw ParseError
  end.

End Js.

Export Js.

Declare Scope js_scope.
Delimit Scope js_scope with js.
Infix "===" := strictEqNum (at level 70, no associativity) : js_scope.
Infix "??" := nullish (at level 45, right associativity) : js_scope.
Infix "&&&" := andC (at level 40, left associativity) : js_scope.
Infix "|||" := orC (at level 50, left associativity) : js_scope.
Local Open Scope js_scope.

(** ** env.ts: the environment resolver (lines 19-51) *)

Module Env.

(** [isKVNamespace]: the binding is a non-null object with the four
    methods of a KV namespace. *)
Definition isKVNamespace (binding : JsValue) : bool :=
  negb (if binding is JUndefined then true else false) &&
  negb (if binding is JNull then true else false) &&
  typeof_object binding &&
  HasProperty binding "get" &&
  HasProperty binding "put" &&
  HasProperty binding "list" &&
  HasProperty binding "delete".

Section MakeEnv.

(** [make] of [./kv-namespace], imported as [makeKVNamespace]: the wrapper
    applied to a detected binding.  Its module is not part of the sources
    at hand, so it is a parameter. *)
Variable makeKVNamespace : JsValue -> JsValue.

(** [makeEnv]: [env] is the property table of the raw environment object;
    the loop body runs once per binding name. *)
Definition makeEnv (env : gmap string JsValue) : gmap string JsValue :=
  let effectEnv : gmap string JsValue := {[ "~raw" := JObj env ]} in
  map_fold
    (fun key binding effectEnv =>
       (* Detect KVNamespace binding by checking for required methods *)
       if isKVNamespace binding
       then <[key := makeKVNamespace binding]> effectEnv
       else <[key := binding]> effectEnv)
    effectEnv env.

End MakeEnv.

End Env.

(** ** The operations and promises shared by both revisions *)

(** [R2Operation]: the literal union of operation names. *)
Inductive R2Operation : Type :=
| op_head
| op_get
| op_put
| op_delete
| op_list
| op_createMultipartUpload
| op_resumeMultipartUpload
| op_uploadPart
| op_completeMultipartUpload
| op_abortMultipartUpload.

(** A settled promise of the provider. *)
Inductive Promise (A : Type) : Type :=
| Resolved (a : A)
| Rejected (error : JsValue).
Arguments Resolved {A} a.
Arguments Rejected {A} error.

(** A value that may be the [null] sentinel. *)
Inductive Nullable (A : Type) : Type :=
| null
| value (a : A).
Arguments null {A}.
Arguments value {A} a.

(** What running an [Effect<A, E>] yields.  [CatchThrew] is the case where
    the [catch] handler of [Effect.tryPromise] itself throws, so that neither
    a value nor a typed error is produced. *)
Inductive Exit (E A : Type) : Type :=
| Success (a : A)
| Failure (e : E)
| CatchThrew (x : Exception).
Arguments Success {E A} a.
Arguments Failure {E A} e.
Arguments CatchThrew {E A} x.

(** [Effect.tryPromise({ try, catch })] on a promise that has settled. *)
Definition tryPromise {A E : Type}
    (try : Promise A) (catch : JsValue -> Completion E) : Exit E A :=
  match try with
  | Resolved a => Success a
  | Rejected error =>
      match catch error with
      | Normal e => Failure e
      | Throw x => CatchThrew x
      end
  end.

(** [await p] followed by the rest of an [async] body that cannot throw. *)
Definition await_then {A B : Type} (p : Promise A) (k : A -> B) : Promise B :=
  match p with
  | Resolved a => Resolved (k a)
  | Rejected error => Rejected error
  end.

(** ** The R2 bucket module, first revision (17 error classes) *)

Module R2Bucket.

(** The [R2ErrorCode] constant table. *)
Module R2ErrorCode.
Definition INTERNAL_ERROR : Z := 10001.
Definition NO_SUCH_OBJECT_KEY : Z := 10007.
Definition ENTITY_TOO_LARGE : Z := 100100.
Definition ENTITY_TOO_SMALL : Z := 10011.
Definition METADATA_TOO_LARGE : Z := 10012.
Definition INVALID_OBJECT_NAME : Z := 10020.
Definition INVALID_MAX_KEYS : Z := 10022.
Definition NO_SUCH_UPLOAD : Z := 10024.
Definition INVALID_PART : Z := 10025.
Definition INVALID_ARGUMENT : Z := 10029.
Definition PRECONDITION_FAILED : Z := 10031.
Definition BAD_DIGEST : Z := 10037.
Definition INVALID_RANGE : Z := 10039.
Definition BAD_UPLOAD : Z := 10048.
End R2ErrorCode.

(** The [R2BucketError] union: one constructor per [Schema.TaggedError]
    class, its arguments being the class's fields in declaration order
    ([Schema.optional] fields are options; [cause] is [Schema.Defect], any
    value, [undefined] when absent). *)
Inductive R2BucketError : Type :=
| R2RateLimitError (key : string) (operation : R2Operation)
    (retryAfter : option Z)
| R2ConcurrencyError (key : option string) (operation : R2Operation)
    (reason : string)
| R2ObjectTooLargeError (key : string) (operation : R2Operation)
    (sizeBytes : option Z) (limit : option Z)
| R2InvalidKeyError (key : string) (operation : R2Operation) (reason : string)
| R2MetadataError (key : string) (operation : R2Operation) (reason : string)
    (sizeBytes : option Z)
| R2PreconditionFailedError (key : string) (operation : R2Operation)
    (condition : string)
| R2MultipartError (key : option string) (operation : R2Operation)
    (reason : string) (uploadId : option string) (partNumber : option Z)
| R2BucketNotFoundError (operation : R2Operation) (bucketName : option string)
| R2NotEnabledError (operation : R2Operation)
| R2AuthorizationError (operation : R2Operation) (reason : string)
| R2NetworkError (key : option string) (operation : R2Operation)
    (reason : string) (cause : JsValue)
| R2ObjectTooSmallError (key : string) (operation : R2Operation)
    (sizeBytes : option Z) (partNumber : option Z)
| R2BadDigestError (key : string) (operation : R2Operation) (reason : string)
    (algorithm : option string)
| R2InvalidMaxKeysError (operation : R2Operation) (limit : option Z)
| R2InvalidRangeError (key : string) (operation : R2Operation)
    (reason : string)
| R2InvalidArgumentError (operation : R2Operation) (reason : string)
    (key : option string)
| R2InternalError (operation : R2Operation) (reason : string)
    (key : option string).

(** The [_tag] of an error: the class name given to [Schema.TaggedError]. *)
Definition _tag (e : R2BucketError) : string :=
  match e with
  | R2RateLimitError _ _ _ => "R2RateLimitError"
  | R2ConcurrencyError _ _ _ => "R2ConcurrencyError"
  | R2ObjectTooLargeError _ _ _ _ => "R2ObjectTooLargeError"
  | R2InvalidKeyError _ _ _ => "R2InvalidKeyError"
  | R2MetadataError _ _ _ _ => "R2MetadataError"
  | R2PreconditionFailedError _ _ _ => "R2PreconditionFailedError"
  | R2MultipartError _ _ _ _ _ => "R2MultipartError"
  | R2BucketNotFoundError _ _ => "R2BucketNotFoundError"
  | R2NotEnabledError _ => "R2NotEnabledError"
  | R2AuthorizationError _ _ => "R2AuthorizationError"
  | R2NetworkError _ _ _ _ => "R2NetworkError"
  | R2ObjectTooSmallError _ _ _ _ => "R2ObjectTooSmallError"
  | R2BadDigestError _ _ _ _ => "R2BadDigestError"
  | R2InvalidMaxKeysError _ _ => "R2InvalidMaxKeysError"
  | R2InvalidRangeError _ _ _ => "R2InvalidRangeError"
  | R2InvalidArgumentError _ _ _ => "R2InvalidArgumentError"
  | R2InternalError _ _ _ => "R2InternalError"
  end.

Definition extractReason (message : JsValue) : JsValue := message.

Import R2ErrorCode.

(** [mapError] (lines 1276-1518): maps native R2 errors to typed error
    classes.  The two [switch] statements are chains of [===] tests on
    their case labels, in source order. *)
Definition mapError (error : JsValue) (operation : R2Operation)
    (key : option string) : Completion R2BucketError :=
  let message := Get error "message" ?? JStr (ToString error) in
  let status := Get error "status" in
  let code := Get error "code" in
  (* Priority 1: Check v4code (R2 error codes) *)
  if code === INTERNAL_ERROR then
    reason ← Schema_String (extractReason message);
    mret (R2InternalError operation reason key)
  else if code === ENTITY_TOO_LARGE then
    mret (R2ObjectTooLargeError (default "" key) operation None None)
  else if code === ENTITY_TOO_SMALL then
    mret (R2ObjectTooSmallError (default "" key) operation None None)
  else if code === METADATA_TOO_LARGE then
    mret (R2MetadataError (default "" key) operation
            "Metadata exceeds size limit" None)
  else if code === INVALID_OBJECT_NAME then
    reason ← Schema_String (extractReason message);
    mret (R2InvalidKeyError (default "" key) operation reason)
  else if code === INVALID_MAX_KEYS then
    mret (R2InvalidMaxKeysError operation None)
  else if code === NO_SUCH_UPLOAD then
    mret (R2MultipartError key operation
            "The specified multipart upload does not exist" None None)
  else if code === INVALID_PART then
    mret (R2MultipartError key operation
            "One or more of the specified parts could not be found" None None)
  else if code === INVALID_ARGUMENT then
    reason ← Schema_String (extractReason message);
    mret (R2InvalidArgumentError operation reason key)
  else if code === PRECONDITION_FAILED then
    condition ← Schema_String (extractReason message);
    mret (R2PreconditionFailedError (default "" key) operation condition)
  else if code === BAD_DIGEST then
    reason ← Schema_String (extractReason message);
    mret (R2BadDigestError (default "" key) operation reason None)
  else if code === INVALID_RANGE then
    reason ← Schema_String (extractReason message);
    mret (R2InvalidRangeError (default "" key) operation reason)
  else if code === BAD_UPLOAD then
    mret (R2MultipartError key operation
            "There was a problem with the multipart upload" None None)
  else if code === 10006 then (* NoSuchBucket *)
    mret (R2BucketNotFoundError operation None)
  else if code === 10042 then (* R2 not enabled *)
    mret (R2NotEnabledError operation)
  (* Priority 2: Check HTTP status codes *)
  else if status === 429 then
    mret (R2RateLimitError (default "" key) operation None)
  else if status === 412 then
    condition ← Schema_String (extractReason message);
    mret (R2PreconditionFailedError (default "" key) operation condition)
  else if status === 416 then
    reason ← Schema_String (extractReason message);
    mret (R2InvalidRangeError (default "" key) operation reason)
  else if (status === 401) || (status === 403) then
    reason ← Schema_String (extractReason message);
    mret (R2AuthorizationError operation reason)
  else if status === 500 then
    reason ← Schema_String (extractReason message);
    mret (R2InternalError operation reason key)
  else if status === 400 then
    (* Fallback 400 handling via message inspection *)
    isKey ← includes message "key" &&&
              (includes message "empty" ||| includes message "invalid");
    if (isKey : bool) then
      reason ← Schema_String (extractReason message);
      mret (R2InvalidKeyError (default "" key) operation reason)
    else
    isMetadata ← includes message "metadata" ||| includes message "Metadata";
    if (isMetadata : bool) then
      reason ← Schema_String (extractReason message);
      mret (R2MetadataError (default "" key) operation reason None)
    else
    isMultipart ← includes message "multipart" |||
                    includes message "part" |||
                    includes message "upload" |||
                    includes message "NoSuchUpload" |||
                    includes message "InvalidPart";
    if (isMultipart : bool) then
      reason ← Schema_String (extractReason message);
      mret (R2MultipartError key operation reason None None)
    else
    isDigest ← includes message "digest" ||| includes message "checksum";
    if (isDigest : bool) then
      reason ← Schema_String (extractReason message);
      mret (R2BadDigestError (default "" key) operation reason None)
    else
    isTooLarge ← includes message "too large" ||| includes message "exceeds";
    if (isTooLarge : bool) then
      mret (R2ObjectTooLargeError (default "" key) operation None None)
    else
    isTooSmall ← includes message "too small";
    if (isTooSmall : bool) then
      mret (R2ObjectTooSmallError (default "" key) operation None None)
    else
    (* Generic 400 error *)
    reason ← Schema_String (extractReason message);
    mret (R2InvalidArgumentError operation reason key)
  else
  (* Priority 3: Message-based detection for non-standard errors *)
  isNoSuchBucket ← includes message "NoSuchBucket";
  if (isNoSuchBucket : bool) then
    mret (R2BucketNotFoundError operation None)
  else
  isNotEnabled ← includes message "Please enable" |||
                   includes message "not entitled";
  if (isNotEnabled : bool) then
    mret (R2NotEnabledError operation)
  else
  isConcurrency ← includes message "TooMuchConcurrency" |||
                    includes message "concurrency";
  if (isConcurrency : bool) then
    reason ← Schema_String (extractReason message);
    mret (R2ConcurrencyError key operation reason)
  else
  (* Fallback: Network/unknown error *)
  reason ← Schema_String message;
  mret (R2NetworkError key operation reason error).

(** *** The optional-result adapter: [make(bucket).head] and [.get]
    (lines 1655-1698) *)

Section Make.

(** The provider's object types, [GetOptions] payloads and their native
    counterparts are opaque to the adapter. *)
Context {R2Object R2ObjectBody R2Conditional R2Range : Type}.


(** The [nativeOptions] object built for [bucket.get]: a property is set
    only when the corresponding option is present. *)
Record NativeGetOptions : Type := {
  native_onlyIf : option R2Conditional;
  native_range : option R2Range;
}.

(** The part of the native [R2Bucket] that [head] and [get] call; the second
    argument of [bucket_get] is absent in the one-argument call. *)
Record NativeBucket : Type := {
  bucket_head : string -> Promise (Nullable R2Object);
  bucket_get :
    string -> option NativeGetOptions -> Promise (Nullable R2ObjectBody);
}.

(** [Option.getOrUndefined]: the payload, or [undefined] for [none]. *)
Definition convertConditional (conditional : option R2Conditional)
  : option R2Conditional := conditional.




End Make.

End R2Bucket.

(** ** The R2 bucket module, second revision (11 error classes) *)

Module R2BucketRev2.

(** The [R2BucketError] union of this revision; the classes it shares with
    the first revision have the same fields. *)
Inductive R2BucketError : Type :=
| R2RateLimitError (key : string) (operation : R2Operation)
    (retryAfter : option Z)
| R2ConcurrencyError (key : option string) (operation : R2Operation)
    (reason : string)
| R2ObjectTooLargeError (key : string) (operation : R2Operation)
    (sizeBytes : option Z) (limit : option Z)
| R2InvalidKeyError (key : string) (operation : R2Operation) (reason : string)
| R2MetadataError (key : string) (operation : R2Operation) (reason : string)
    (sizeBytes : option Z)
| R2PreconditionFailedError (key : string) (operation : R2Operation)
    (condition : string)
| R2MultipartError (key : option string) (operation : R2Operation)
    (reason : string) (uploadId : option string) (partNumber : option Z)
| R2BucketNotFoundError (operation : R2Operation) (bucketName : option string)
| R2NotEnabledError (operation : R2Operation)
| R2AuthorizationError (operation : R2Operation) (reason : string)
| R2NetworkError (key : option string) (operation : R2Operation)
    (reason : string) (cause : JsValue).

Definition _tag (e : R2BucketError) : string :=
  match e with
  | R2RateLimitError _ _ _ => "R2RateLimitError"
  | R2ConcurrencyError _ _ _ => "R2ConcurrencyError"
  | R2ObjectTooLargeError _ _ _ _ => "R2ObjectTooLargeError"
  | R2InvalidKeyError _ _ _ => "R2InvalidKeyError"
  | R2MetadataError _ _ _ _ => "R2MetadataError"
  | R2PreconditionFailedError _ _ _ => "R2PreconditionFailedError"
  | R2MultipartError _ _ _ _ _ => "R2MultipartError"
  | R2BucketNotFoundError _ _ => "R2BucketNotFoundError"
  | R2NotEnabledError _ => "R2NotEnabledError"
  | R2AuthorizationError _ _ => "R2AuthorizationError"
  | R2NetworkError _ _ _ _ => "R2NetworkError"
  end.

Definition extractReason (message : JsValue) : JsValue := message.

(** [mapError] of this revision (lines 2720-2857). *)
Definition mapError (error : JsValue) (operation : R2Operation)
    (key : option string) : Completion R2BucketError :=
  let message := Get error "message" ?? JStr (ToString error) in
  let status := Get error "status" in
  let code := Get error "code" in
  (* Handle error codes first *)
  isNoSuchBucket ← mret (code === 10006) ||| includes message "NoSuchBucket";
  if (isNoSuchBucket : bool) then
    mret (R2BucketNotFoundError operation None)
  else
  isNotEnabled ← mret (code === 10042) ||| includes message "Please enable";
  if (isNotEnabled : bool) then
    mret (R2NotEnabledError operation)
  (* Handle by status code *)
  else if status === 429 then
    (* Rate limit exceeded *)
    mret (R2RateLimitError (default "" key) operation None)
  else if status === 412 then
    (* Precondition failed *)
    condition ← Schema_String (extractReason message);
    mret (R2PreconditionFailedError (default "" key) operation condition)
  else if status === 416 then
    (* Range not satisfiable *)
    mret (R2InvalidKeyError (default "" key) operation
            "Invalid range request")
  else if status === 414 then
    (* Key too long *)
    mret (R2InvalidKeyError (default "" key) operation
            "Key exceeds 1024 byte limit")
  else if status === 413 then
    (* Disambiguate 413 errors *)
    isMetadata ← includes message "metadata" ||| includes message "Metadata";
    if (isMetadata : bool) then
      mret (R2MetadataError (default "" key) operation
              "Metadata exceeds 8192 byte limit" None)
    else
      (* Object too large *)
      mret (R2ObjectTooLargeError (default "" key) operation None None)
  else if (status === 401) || (status === 403) then
    (* Authorization errors *)
    reason ← Schema_String (extractReason message);
    mret (R2AuthorizationError operation reason)
  else if status === 400 then
    (* Disambiguate 400 errors *)
    isKey ← includes message "key" &&&
              (includes message "empty" ||| includes message "invalid");
    if (isKey : bool) then
      reason ← Schema_String (extractReason message);
      mret (R2InvalidKeyError (default "" key) operation reason)
    else
    isMultipart ← includes message "multipart" |||
                    includes message "part" |||
                    includes message "upload" |||
                    includes message "NoSuchUpload" |||
                    includes message "InvalidPart";
    if (isMultipart : bool) then
      reason ← Schema_String (extractReason message);
      mret (R2MultipartError key operation reason None None)
    else
    (* Other 400 errors *)
    reason ← Schema_String (extractReason message);
    mret (R2NetworkError key operation reason error)
  else
  (* Check for concurrency errors *)
  isConcurrency ← includes message "TooMuchConcurrency" |||
                    includes message "concurrency";
  if (isConcurrency : bool) then
    reason ← Schema_String (extractReason message);
    mret (R2ConcurrencyError key operation reason)
  else
  (* Network errors, 5xx, timeouts, unknown status *)
  reason ← Schema_String message;
  mret (R2NetworkError key operation reason error).

End R2BucketRev2.

(** ** Vocabulary of the statements *)

Module Raw.

Import R2Bucket.R2ErrorCode.

(** The [message] local of [mapError]: [errorObj?.message ?? String(error)]. *)
Definition rawMessage (error : JsValue) : JsValue :=
  Get error "message" ?? JStr (ToString error).

(** A raw failure whose message is text: anything that is not an object
    (its message is then [String(error)]), or an object whose [message]
    property is absent, [undefined], [null] or a string. *)
Definition textualMessage (error : JsValue) : bool :=
  match error with
  | JObj props =>
      match props !! "message" with
      | None | Some JUndefined | Some JNull | Some (JStr _) => true
      | Some _ => false
      end
  | _ => true
  end.

(** The code lookup table, written out as data: each recognized provider
    error code (the names of [R2ErrorCode] and the two literals for the
    missing bucket and for R2 not being enabled) with the [_tag] of the class
    that the class documentation and the specification give for it. *)
Definition codeTable : list (Z * string) :=
  [ (INTERNAL_ERROR, "R2InternalError");
    (ENTITY_TOO_LARGE, "R2ObjectTooLargeError");
    (ENTITY_TOO_SMALL, "R2ObjectTooSmallError");
    (METADATA_TOO_LARGE, "R2MetadataError");
    (INVALID_OBJECT_NAME, "R2InvalidKeyError");
    (INVALID_MAX_KEYS, "R2InvalidMaxKeysError");
    (NO_SUCH_UPLOAD, "R2MultipartError");
    (INVALID_PART, "R2MultipartError");
    (INVALID_ARGUMENT, "R2InvalidArgumentError");
    (PRECONDITION_FAILED, "R2PreconditionFailedError");
    (BAD_DIGEST, "R2BadDigestError");
    (INVALID_RANGE, "R2InvalidRangeError");
    (BAD_UPLOAD, "R2MultipartError");
    (10006, "R2BucketNotFoundError");
    (10042, "R2NotEnabledError") ].

(** The failure carries one of the recognized provider error codes. *)
Definition recognizedCode (error : JsValue) : bool :=
  existsb (fun entry => Get error "code" === fst entry) codeTable.

(** The HTTP statuses the first revision's status switch has a case for. *)
Definition statusCases : list Z := [429; 412; 416; 401; 403; 500; 400].

Definition recognizedStatus (error : JsValue) : bool :=
  existsb (fun s => Get error "status" === s) statusCases.

(** The keywords of the final message-based detection. *)
Definition catchAllKeywords : list string :=
  [ "NoSuchBucket"; "Please enable"; "not entitled";
    "TooMuchConcurrency"; "concurrency" ].

Definition mentionsAny (m : string) (keywords : list string) : bool :=
  existsb (String_includes m) keywords.

(** Lowercasing, as the specification's wording of the message scan has it
    (the sources never lowercase): ASCII letters [A]..[Z] are mapped to
    [a]..[z]. *)
Definition lowerAscii (a : ascii) : ascii :=
  let n := N_of_ascii a in
  if ((65 <=? n) && (n <=? 90))%N then ascii_of_N (n + 32) else a.

Fixpoint toLowerCase (s : string) : string :=
  match s with
  | EmptyString => EmptyString
  | String a rest => String (lowerAscii a) (toLowerCase rest)
  end.


(** The classes the specification names as missing from one revision. *)
Definition granularTags : list string :=
  [ "R2ObjectTooSmallError"; "R2BadDigestError";
    "R2InvalidMaxKeysError"; "R2InvalidRangeError" ].

End Raw.

Export Raw.

(** ** Sample inputs *)

Module Samples.


(** A stand-in for the KV wrapper. *)
Definition sampleWrapper (binding : JsValue) : JsValue :=
  JObj {[ "wrapped" := binding ]}.



End Samples.

Export Samples.

(** ** The error classes: fields and [message] getters *)

Module R2Error.

Import R2Bucket.

(** An [R2Operation] is its own name: the string literal. *)
Definition operationName (op : R2Operation) : string :=
  match op with
  | op_head => "head"
  | op_get => "get"
  | op_put => "put"
  | op_delete => "delete"
  | op_list => "list"
  | op_createMultipartUpload => "createMultipartUpload"
  | op_resumeMultipartUpload => "resumeMultipartUpload"
  | op_uploadPart => "uploadPart"
  | op_completeMultipartUpload => "completeMultipartUpload"
  | op_abortMultipartUpload => "abortMultipartUpload"
  end.

(** The [operation] field, which every class declares. *)
Definition operation (e : R2BucketError) : R2Operation :=
  match e with
  | R2RateLimitError _ op _ | R2ConcurrencyError _ op _
  | R2ObjectTooLargeError _ op _ _ | R2InvalidKeyError _ op _
  | R2MetadataError _ op _ _ | R2PreconditionFailedError _ op _
  | R2MultipartError _ op _ _ _ | R2BucketNotFoundError op _
  | R2NotEnabledError op | R2AuthorizationError op _
  | R2NetworkError _ op _ _ | R2ObjectTooSmallError _ op _ _
  | R2BadDigestError _ op _ _ | R2InvalidMaxKeysError op _
  | R2InvalidRangeError _ op _ | R2InvalidArgumentError op _ _
  | R2InternalError op _ _ => op
  end.

(** The [key] property of an error: absent for the four classes that
    declare none, and for an optional [key] that is [undefined]. *)
Definition key (e : R2BucketError) : option string :=
  match e with
  | R2RateLimitError k _ _ | R2ObjectTooLargeError k _ _ _
  | R2InvalidKeyError k _ _ | R2MetadataError k _ _ _
  | R2PreconditionFailedError k _ _ | R2ObjectTooSmallError k _ _ _
  | R2BadDigestError k _ _ _ | R2InvalidRangeError k _ _ => Some k
  | R2ConcurrencyError k _ _ | R2MultipartError k _ _ _ _
  | R2NetworkError k _ _ _ | R2InvalidArgumentError _ _ k
  | R2InternalError _ _ k => k
  | R2BucketNotFoundError _ _ | R2NotEnabledError _
  | R2AuthorizationError _ _ | R2InvalidMaxKeysError _ _ => None
  end.

(** The optional diagnostic fields of an error that are defined
    ([retryAfter], [sizeBytes], [limit], [uploadId], [partNumber],
    [bucketName], [algorithm]), by name. *)
Definition details (e : R2BucketError) : list (string * JsValue) :=
  let num (name : string) (o : option Z) :=
    match o with Some n => [(name, JNum n)] | None => [] end in
  let str (name : string) (o : option string) :=
    match o with Some s => [(name, JStr s)] | None => [] end in
  match e with
  | R2RateLimitError _ _ retryAfter => num "retryAfter" retryAfter
  | R2ObjectTooLargeError _ _ sizeBytes limit =>
      (num "sizeBytes" sizeBytes ++ num "limit" limit)%list
  | R2MetadataError _ _ _ sizeBytes => num "sizeBytes" sizeBytes
  | R2MultipartError _ _ _ uploadId partNumber =>
      (str "uploadId" uploadId ++ num "partNumber" partNumber)%list
  | R2BucketNotFoundError _ bucketName => str "bucketName" bucketName
  | R2ObjectTooSmallError _ _ sizeBytes partNumber =>
      (num "sizeBytes" sizeBytes ++ num "partNumber" partNumber)%list
  | R2BadDigestError _ _ _ algorithm => str "algorithm" algorithm
  | R2InvalidMaxKeysError _ limit => num "limit" limit
  | _ => []
  end.

(** The double-quote character of the message templates. *)
Definition dq : string := String "034" EmptyString.

(** [`${n}`] for a number. *)
Definition numberText (n : Z) : string := ToString (JNum n).

(** [x ? text(x) : ""] for an optional number: [undefined] and [0] are
    falsy. *)
Definition whenNumber (o : option Z) (text : Z -> string) : string :=
  match o with
  | Some n => if Z.eqb n 0 then "" else text n
  | None => ""
  end.

(** [x ? text(x) : ""] for an optional string: [undefined] and the empty
    string are falsy. *)
Definition whenString (o : option string) (text : string -> string) : string :=
  match o with
  | Some EmptyString | None => ""
  | Some s => text s
  end.

(** [x !== undefined ? text(x) : ""]. *)
Definition whenDefined (o : option Z) (text : Z -> string) : string :=
  match o with
  | Some n => text n
  | None => ""
  end.

(** The [keyMsg] local shared by the classes with an optional key. *)
Definition keyMsg (k : option string) : string :=
  whenString k (fun k => " for key " ++ dq ++ k ++ dq).

(** The [message] getter of each class. *)
Definition message (e : R2BucketError) : string :=
  match e with
  | R2RateLimitError k op retryAfter =>
      let retryMsg :=
        whenNumber retryAfter
          (fun n => " Retry after " ++ numberText n ++ "ms.") in
      "R2 rate limit exceeded for key " ++ dq ++ k ++ dq ++ " during " ++
      operationName op ++ "." ++ retryMsg
  | R2ConcurrencyError k op reason =>
      "R2 concurrency limit exceeded" ++ keyMsg k ++ " during " ++
      operationName op ++ ": " ++ reason
  | R2ObjectTooLargeError k op sizeBytes limit =>
      let sizeMsg :=
        whenNumber sizeBytes (fun n => " (" ++ numberText n ++ " bytes)") in
      let limitMsg :=
        whenNumber limit
          (fun n => " Maximum size is " ++ numberText n ++ " bytes.") in
      "R2 object too large for key " ++ dq ++ k ++ dq ++ sizeMsg ++ "." ++
      limitMsg
  | R2InvalidKeyError k op reason =>
      "Invalid R2 key " ++ dq ++ k ++ dq ++ " during " ++ operationName op ++
      ": " ++ reason
  | R2MetadataError k op reason sizeBytes =>
      let sizeMsg :=
        whenNumber sizeBytes (fun n => " (" ++ numberText n ++ " bytes)") in
      "Invalid R2 metadata for key " ++ dq ++ k ++ dq ++ sizeMsg ++
      " during " ++ operationName op ++ ": " ++ reason
  | R2PreconditionFailedError k op condition =>
      "R2 precondition failed for key " ++ dq ++ k ++ dq ++ " during " ++
      operationName op ++ ": " ++ condition
  | R2MultipartError k op reason uploadId partNumber =>
      let uploadMsg :=
        whenString uploadId (fun u => " (uploadId: " ++ u ++ ")") in
      let partMsg :=
        whenDefined partNumber (fun n => " (part: " ++ numberText n ++ ")") in
      "R2 multipart upload error" ++ keyMsg k ++ uploadMsg ++ partMsg ++
      " during " ++ operationName op ++ ": " ++ reason
  | R2BucketNotFoundError op bucketName =>
      let nameMsg := whenString bucketName (fun b => " " ++ dq ++ b ++ dq) in
      "R2 bucket" ++ nameMsg ++ " not found during " ++ operationName op
  | R2NotEnabledError op =>
      "R2 not enabled on account during " ++ operationName op ++
      ". Please enable through the Cloudflare Dashboard."
  | R2AuthorizationError op reason =>
      "R2 authorization failed during " ++ operationName op ++ ": " ++ reason
  | R2NetworkError k op reason _ =>
      "R2 network error" ++ keyMsg k ++ " during " ++ operationName op ++
      ": " ++ reason
  | R2ObjectTooSmallError k op sizeBytes partNumber =>
      let sizeMsg :=
        whenNumber sizeBytes (fun n => " (" ++ numberText n ++ " bytes)") in
      let partMsg :=
        whenDefined partNumber (fun n => " part " ++ numberText n) in
      "R2 object too small for key " ++ dq ++ k ++ dq ++ partMsg ++ sizeMsg ++
      " during " ++ operationName op ++
      ". Parts must be >= 5 MiB except the last part."
  | R2BadDigestError k op reason algorithm =>
      let algoMsg := whenString algorithm (fun a => " (" ++ a ++ ")") in
      "R2 checksum validation failed" ++ algoMsg ++ " for key " ++ dq ++ k ++
      dq ++ " during " ++ operationName op ++ ": " ++ reason
  | R2InvalidMaxKeysError op limit =>
      let limitMsg :=
        whenDefined limit (fun n => " (" ++ numberText n ++ ")") in
      "R2 invalid MaxKeys parameter" ++ limitMsg ++ " during " ++
      operationName op ++ ". MaxKeys must be positive integer <= 1000."
  | R2InvalidRangeError k op reason =>
      "R2 invalid range for key " ++ dq ++ k ++ dq ++ " during " ++
      operationName op ++ ": " ++ reason
  | R2InvalidArgumentError op reason k =>
      "R2 invalid argument" ++ keyMsg k ++ " during " ++ operationName op ++
      ": " ++ reason
  | R2InternalError op reason k =>
      "R2 internal error" ++ keyMsg k ++ " during " ++ operationName op ++
      ": " ++ reason
  end.

(** The second revision declares eleven of these classes, with the same
    fields and getters: each of its errors is the first revision's error of
    the same class. *)
Definition ofRev2 (e : R2BucketRev2.R2BucketError) : R2BucketError :=
  match e with
  | R2BucketRev2.R2RateLimitError k op r => R2RateLimitError k op r
  | R2BucketRev2.R2ConcurrencyError k op r => R2ConcurrencyError k op r
  | R2BucketRev2.R2ObjectTooLargeError k op s l =>
      R2ObjectTooLargeError k op s l
  | R2BucketRev2.R2InvalidKeyError k op r => R2InvalidKeyError k op r
  | R2BucketRev2.R2MetadataError k op r s => R2MetadataError k op r s
  | R2BucketRev2.R2PreconditionFailedError k op c =>
      R2PreconditionFailedError k op c
  | R2BucketRev2.R2MultipartError k op r u p => R2MultipartError k op r u p
  | R2BucketRev2.R2BucketNotFoundError op b => R2BucketNotFoundError op b
  | R2BucketRev2.R2NotEnabledError op => R2NotEnabledError op
  | R2BucketRev2.R2AuthorizationError op r => R2AuthorizationError op r
  | R2BucketRev2.R2NetworkError k op r c => R2NetworkError k op r c
  end.

End R2Error.

(** ** The remaining operations of [make] and the multipart session

    [wrapMultipartUpload] and [make] (lines 1613-1829) are the same text in
    the second revision (lines 2952-3168); they are embedded once, over the
    [mapError] and the error union of either revision. *)

Module Make.

Section Operations.

Context {E : Type}.
Variable mapError : JsValue -> R2Operation -> option string -> Completion E.

(** The payload types of the provider, opaque to the facade. *)
Context {R2Object R2Conditional R2HTTPMetadata CustomMetadata Checksum
         Value Include : Type}.

(** *** [put] *)


(** The [nativeOptions] object of [put]: a property is [Some] once it has
    been assigned. *)
Record NativePutOptions : Type := {
  native_onlyIf : option R2Conditional;
  native_httpMetadata : option R2HTTPMetadata;
  native_customMetadata : option CustomMetadata;
  native_md5 : option Checksum;
  native_sha1 : option Checksum;
  native_sha256 : option Checksum;
  native_sha384 : option Checksum;
  native_sha512 : option Checksum;
}.




(** [Option.getOrUndefined] and the two converters built on it. *)
Definition getOrUndefined {A : Type} (o : option A) : option A := o.
Definition convertConditional (conditional : option R2Conditional)
  : option R2Conditional := getOrUndefined conditional.

(** [Option.isSome]. *)
Definition isSome {A : Type} (o : option A) : bool :=
  match o with Some _ => true | None => false end.


(** *** [delete], [list] and the multipart session *)

(** [keys: string | ReadonlyArray<string>]. *)
Inductive DeleteKeys : Type :=
| OneKey (key : string)
| ManyKeys (keys : list string).

Record ListOptions : Type := {
  limit : option Z;
  prefix : option string;
  cursor : option string;
  delimiter : option string;
  startAfter : option string;
  include : option Include;
}.

Record NativeListOptions : Type := {
  native_limit : option Z;
  native_prefix : option string;
  native_cursor : option string;
  native_delimiter : option string;
  native_startAfter : option string;
  native_include : option Include;
}.

Definition emptyListOptions : NativeListOptions :=
  {| native_limit := None; native_prefix := None; native_cursor := None;
     native_delimiter := None; native_startAfter := None;
     native_include := None |}.

(** [nativeOptions.<name> = v] for each property of [list]'s options. *)
Definition set_limit (v : option Z) (n : NativeListOptions) :=
  {| native_limit := v; native_prefix := native_prefix n;
     native_cursor := native_cursor n; native_delimiter := native_delimiter n;
     native_startAfter := native_startAfter n;
     native_include := native_include n |}.
Definition set_prefix (v : option string) (n : NativeListOptions) :=
  {| native_limit := native_limit n; native_prefix := v;
     native_cursor := native_cursor n; native_delimiter := native_delimiter n;
     native_startAfter := native_startAfter n;
     native_include := native_include n |}.
Definition set_cursor (v : option string) (n : NativeListOptions) :=
  {| native_limit := native_limit n; native_prefix := native_prefix n;
     native_cursor := v; native_delimiter := native_delimiter n;
     native_startAfter := native_startAfter n;
     native_include := native_include n |}.
Definition set_delimiter (v : option string) (n : NativeListOptions) :=
  {| native_limit := native_limit n; native_prefix := native_prefix n;
     native_cursor := native_cursor n; native_delimiter := v;
     native_startAfter := native_startAfter n;
     native_include := native_include n |}.
Definition set_startAfter (v : option string) (n : NativeListOptions) :=
  {| native_limit := native_limit n; native_prefix := native_prefix n;
     native_cursor := native_cursor n; native_delimiter := native_delimiter n;
     native_startAfter := v; native_include := native_include n |}.
Definition set_include (v : option Include) (n : NativeListOptions) :=
  {| native_limit := native_limit n; native_prefix := native_prefix n;
     native_cursor := native_cursor n; native_delimiter := native_delimiter n;
     native_startAfter := native_startAfter n; native_include := v |}.

(** [R2Objects]: what [list] resolves to and what the facade returns. *)
Record R2Objects : Type := {
  objects : list R2Object;
  truncated : bool;
  result_cursor : option string;
  delimitedPrefixes : list string;
}.


Record NativeMultipartOptions : Type := {
  native_mp_httpMetadata : option R2HTTPMetadata;
  native_mp_customMetadata : option CustomMetadata;
}.


Record R2UploadedPart : Type := {
  partNumber : Z;
  etag : string;
}.

(** The provider's multipart upload handle. *)
Record NativeMultipartUpload : Type := {
  upload_key : string;
  upload_uploadId : string;
  upload_uploadPart : Z -> Value -> Promise R2UploadedPart;
  upload_complete : list R2UploadedPart -> Promise R2Object;
  upload_abort : Promise unit;
}.

(** The facade's [R2MultipartUpload]. *)
Record R2MultipartUpload : Type := {
  key : string;
  uploadId : string;
  uploadPart : Z -> Value -> Exit E R2UploadedPart;
  complete : list R2UploadedPart -> Exit E R2Object;
  abort : Exit E unit;
}.

(** The part of the provider's bucket these operations call. *)
Record NativeBucket : Type := {
  bucket_put :
    string -> Value -> option NativePutOptions -> Promise (Nullable R2Object);
  bucket_delete : DeleteKeys -> Promise unit;
  bucket_list : NativeListOptions -> Promise R2Objects;
  bucket_createMultipartUpload :
    string -> option NativeMultipartOptions -> Promise NativeMultipartUpload;
  bucket_resumeMultipartUpload : string -> string -> NativeMultipartUpload;
}.

(** [wrapMultipartUpload]. *)
Definition wrapMultipartUpload (upload : NativeMultipartUpload)
  : R2MultipartUpload :=
  {| key := upload_key upload;
     uploadId := upload_uploadId upload;
     uploadPart := fun partNumber' value =>
       tryPromise
         (await_then (upload_uploadPart upload partNumber' value)
            (fun result => {| partNumber := partNumber result;
                              etag := etag result |}))
         (fun error => mapError error op_uploadPart (Some (upload_key upload)));
     complete := fun uploadedParts =>
       tryPromise
         (await_then (upload_complete upload uploadedParts) (fun result => result))
         (fun error =>
            mapError error op_completeMultipartUpload
              (Some (upload_key upload)));
     abort :=
       tryPromise
         (await_then (upload_abort upload) (fun _ => tt))
         (fun error =>
            mapError error op_abortMultipartUpload
              (Some (upload_key upload))) |}.



(** [make(bucket).list]: the options object is always passed, even when no
    property was assigned. *)
Definition list (bucket : NativeBucket) (options : option ListOptions)
  : Exit E R2Objects :=
  tryPromise
    (let nativeOptions := emptyListOptions in
     let nativeOptions :=
       match options with
       | Some options =>
           let n := nativeOptions in
           let n := if isSome (limit options)
                    then set_limit (getOrUndefined (limit options)) n
                    else n in
           let n := if isSome (prefix options)
                    then set_prefix (getOrUndefined (prefix options)) n
                    else n in
           let n := if isSome (cursor options)
                    then set_cursor (getOrUndefined (cursor options)) n
                    else n in
           let n := if isSome (delimiter options)
                    then set_delimiter (getOrUndefined (delimiter options)) n
                    else n in
           let n := if isSome (startAfter options)
                    then set_startAfter (getOrUndefined (startAfter options)) n
                    else n in
           if isSome (include options)
           then set_include (getOrUndefined (include options)) n else n
       | None => nativeOptions
       end in
     await_then (bucket_list bucket nativeOptions)
       (fun result =>
          {| objects := objects result;
             truncated := truncated result;
             result_cursor := result_cursor result;
             delimitedPrefixes := delimitedPrefixes result |}))
    (fun error => mapError error op_list None).



End Operations.

End Make.

(** ** Vocabulary of the further statements *)

Module Tables.

(** The classes that declare no [key] field. *)
Definition keylessTags : list string :=
  [ "R2BucketNotFoundError"; "R2NotEnabledError";
    "R2AuthorizationError"; "R2InvalidMaxKeysError" ].

(** The status switch of the first revision, without its case 400: each
    case label with the [_tag] of the class it constructs. *)
Definition statusTable : list (Z * string) :=
  [ (429, "R2RateLimitError");
    (412, "R2PreconditionFailedError");
    (416, "R2InvalidRangeError");
    (401, "R2AuthorizationError");
    (403, "R2AuthorizationError");
    (500, "R2InternalError") ].

(** The keywords that the first revision's case 400 looks for after the
    key test, in source order. *)
Definition keywords400 : list string :=
  [ "metadata"; "Metadata";
    "multipart"; "part"; "upload"; "NoSuchUpload"; "InvalidPart";
    "digest"; "checksum";
    "too large"; "exceeds";
    "too small" ].

(** The key test of case 400. *)
Definition mentionsKey (m : string) : bool :=
  String_includes m "key" &&
  (String_includes m "empty" || String_includes m "invalid").

(** The classes case 400 of the first revision can construct. *)
Definition tags400 : list string :=
  [ "R2InvalidKeyError"; "R2MetadataError"; "R2MultipartError";
    "R2BadDigestError"; "R2ObjectTooLargeError"; "R2ObjectTooSmallError";
    "R2InvalidArgumentError" ].

(** The multipart keywords of case 400, shared by both revisions. *)
Definition multipartKeywords : list string :=
  [ "multipart"; "part"; "upload"; "NoSuchUpload"; "InvalidPart" ].

(** The status switch of the second revision, for the cases that ignore
    the message: each case label with the error it constructs from the
    operation and the key. *)
Definition statusTableRev2 (operation : R2Operation) (key : option string)
  : list (Z * R2BucketRev2.R2BucketError) :=
  [ (429, R2BucketRev2.R2RateLimitError (default "" key) operation None);
    (416, R2BucketRev2.R2InvalidKeyError (default "" key) operation
            "Invalid range request");
    (414, R2BucketRev2.R2InvalidKeyError (default "" key) operation
            "Key exceeds 1024 byte limit") ].

(** The second revision's gate before its status switch. *)
Definition gateRev2 (error : JsValue) (m : string) : bool :=
  (Get error "code" === 10006) || String_includes m "NoSuchBucket" ||
  (Get error "code" === 10042) || String_includes m "Please enable".

(** [t] is found at the start of [s]. *)
Definition StartsWith (s t : string) : Prop :=
  exists post, s = (t ++ post)%string.

(** The fixed phrase that the unit tests of the error classes expect in
    the message ([expect(error.message).toContain(...)]), for the classes
    that have such a test. *)
Definition testedPhrase (e : R2BucketRev2.R2BucketError) : option string :=
  match e with
  | R2BucketRev2.R2RateLimitError _ _ _ => Some "rate limit"
  | R2BucketRev2.R2ConcurrencyError _ _ _ => Some "concurrency"
  | R2BucketRev2.R2InvalidKeyError _ _ _ => Some "Invalid R2 key"
  | R2BucketRev2.R2PreconditionFailedError _ _ _ => Some "precondition failed"
  | R2BucketRev2.R2BucketNotFoundError _ _ => Some "not found"
  | R2BucketRev2.R2NotEnabledError _ => Some "not enabled"
  | R2BucketRev2.R2AuthorizationError _ _ => Some "authorization failed"
  | R2BucketRev2.R2NetworkError _ _ _ _ => Some "network error"
  | _ => None
  end.

End Tables.

Export Tables.

(** ** Vocabulary for the operations *)

Module Calls.

Section Calls.

Context {R2Conditional R2HTTPMetadata CustomMetadata Checksum Include : Type}.




End Calls.


End Calls.

Export Calls.

(** ** Sample providers *)

Module Providers.


Definition sampleObjects : @Make.R2Objects string :=
  {| Make.objects := ["a"; "b"]; Make.truncated := false;
     Make.result_cursor := None; Make.delimitedPrefixes := [] |}.

(** An upload whose parts are accepted up to number 3 and rejected
    beyond, and which cannot be completed. *)
Definition sampleUpload : @Make.NativeMultipartUpload string string :=
  {| Make.upload_key := "video.mp4";
     Make.upload_uploadId := "upload-123";
     Make.upload_uploadPart := fun n value =>
       if (n <=? 3)%Z
       then Resolved {| Make.partNumber := n; Make.etag := value |}
       else Rejected (JObj {[ "code" := JNum 10025 ]});
     Make.upload_complete := fun parts =>
       Rejected (JObj {[ "code" := JNum 10048 ]});
     Make.upload_abort := Resolved tt |}.


End Providers.

Export Providers.

(** ** The failures whose classification cannot raise *)

Module Domain.

(** A raw failure that carries its message as a string, or is no object at
    all ([null], [undefined], a primitive, a function): on these
    [mapError] either reads a string [message] or converts a primitive
    with [String]. *)
Definition stringMessage (error : JsValue) : bool :=
  match error with
  | JObj props =>
      match props !! "message" with
      | Some (JStr _) => true
      | _ => false
      end
  | _ => true
  end.



(** [Number.MAX_SAFE_INTEGER + 1]: below it, in absolute value, every
    integer is a number and prints as its decimal digits. *)
Definition safeBound : Z := 2 ^ 53.

End Domain.

Export Domain.

(** ** Proof automation for the cascades *)

(** Replaces [mapError]'s local [message] by a known text, and names the
    [status] and [code] it reads. *)
Ltac with_text H :=
  unfold R2Bucket.mapError, R2BucketRev2.mapError,
    R2Bucket.extractReason, R2BucketRev2.extractReason;
  cbv zeta;
  repeat match goal with
  | |- context [Get ?e "message" ?? JStr (ToString ?e)] =>
      change (Get e "message" ?? JStr (ToString e)) with (rawMessage e)
  end;
  rewrite ?H.

(** Runs the binds, the lazy connectives and the field validations that
    have become decidable. *)
Ltac evaluate :=
  cbv beta iota delta [mbind mret Completion_bind Completion_ret includes
                       andC orC Schema_String orb].

(** One decision of the cascade. *)
Ltac decide_test :=
  match goal with
  | |- context [if ?b then _ else _] => destruct b eqn:?
  end.

(** One decision of the cascade, followed by the evaluation it enables. *)
Ltac branch := decide_test; evaluate.

(** One decision of the cascade inside a hypothesis. *)
Ltac branch_in H :=
  match type of H with
  | context [if ?b then _ else _] => destruct b eqn:?
  end;
  cbv beta iota delta [mbind mret Completion_bind Completion_ret includes
                       andC orC Schema_String orb] in H.

(** Rewrites every test of the code switch (resp. status switch) to
    [false]. *)
Ltac skip_switch H lemma :=
  let F := fresh "F" in
  pose proof (lemma _ H) as F;
  unfold codeTable, statusCases in F;
  repeat match type of F with
  | Forall _ (_ :: _) =>
      let E := fresh "E" in
      apply Forall_cons in F as [E F]; cbn [fst] in E;
      rewrite ?E; clear E
  end;
  clear F.

(** Opens a hypothesis [mapError error operation key = Normal e] of either
    revision into its paths, keeping the value of the message. *)
Ltac paths H Hm :=
  unfold R2Bucket.mapError, R2Bucket.extractReason,
    R2BucketRev2.mapError, R2BucketRev2.extractReason in H;
  cbv zeta in H;
  match type of H with
  | context [Get ?e "message" ?? JStr (ToString ?e)] =>
      change (Get e "message" ?? JStr (ToString e)) with (rawMessage e) in H;
      destruct (rawMessage e) eqn:Hm
  end;
  repeat branch_in H; try discriminate H;
  injection H as <-.

(** * Properties *)

(** ** Substring search *)

Lemma append_cons_l (a : ascii) (s t : string) :
  (String a s ++ t)%string = String a (s ++ t)%string.
Proof. reflexivity. Qed.

Lemma prefix_app (t s : string) :
  String.prefix t s = true <-> exists post, s = (t ++ post)%string.
Proof.
  revert s. induction t as [|a t IH]; intros s.
  - split; [intros _; by exists s | by destruct s].
  - destruct s as [|b s]; cbn.
    + split; [done | intros [post Hpost]; discriminate].
    + destruct (Ascii.ascii_dec a b) as [->|Hne].
      * rewrite IH. split; intros [post Hpost]; exists post;
          rewrite append_cons_l in *; congruence.
      * split; [done | intros [post Hpost]].
        rewrite append_cons_l in Hpost. congruence.
Qed.

(** [String_includes s t] holds exactly when [t] is a substring of [s]. *)
Lemma String_includes_spec (s t : string) :
  String_includes s t = true <->
  exists pre post, s = (pre ++ t ++ post)%string.
Proof.
  induction s as [|a s IH]; cbn [String_includes].
  - rewrite orb_false_r, prefix_app. split.
    + intros [post Hpost]. by exists EmptyString, post.
    + intros [pre [post Hpost]]. destruct pre as [|b pre].
      * by exists post.
      * rewrite append_cons_l in Hpost. discriminate.
  - rewrite orb_true_iff, prefix_app, IH. split.
    + intros [[post Hpost] | [pre [post Hpost]]].
      * by exists EmptyString, post.
      * exists (String a pre), post. rewrite append_cons_l. congruence.
    + intros [pre [post Hpost]]. destruct pre as [|b pre].
      * left. by exists post.
      * right. exists pre, post. rewrite append_cons_l in Hpost. congruence.
Qed.

Arguments String_includes : simpl never.

(** ** The message of a raw failure *)

Lemma textualMessage_rawMessage (error : JsValue) :
  textualMessage error = true -> exists m, rawMessage error = JStr m.
Proof.
  unfold textualMessage, rawMessage. destruct error as [| | | | | |props]; cbn;
    try (intros _; eexists; reflexivity).
  destruct (props !! "message") as [[]|]; cbn; intros H;
    try discriminate; eexists; reflexivity.
Qed.

Lemma rawMessage_textualMessage (error : JsValue) (m : string) :
  rawMessage error = JStr m -> textualMessage error = true.
Proof.
  unfold textualMessage, rawMessage. destruct error as [| | | | | |props]; cbn;
    try done.
  destruct (props !! "message") as [[]|]; cbn; done.
Qed.

(** A failure that is not an object reports [String(error)]. *)
Lemma rawMessage_not_object (error : JsValue) :
  (forall props, error <> JObj props) ->
  rawMessage error = JStr (ToString error).
Proof.
  intros Hno. destruct error; try reflexivity. by destruct (Hno props).
Qed.

(** ** The first revision's [mapError] *)

(** C1. A failure that carries a recognized provider error code is
    classified by the code lookup table alone: whatever its HTTP status and
    whatever the text of its message, [mapError] returns the variant the
    table gives for the code. *)
Theorem mapError_code_priority (error : JsValue) (operation : R2Operation)
    (key : option string) (c : Z) (tag m : string) :
  In (c, tag) codeTable ->
  Get error "code" = JNum c ->
  rawMessage error = JStr m ->
  exists e, R2Bucket.mapError error operation key = Normal e /\
            R2Bucket._tag e = tag.
Proof.
  intros Hin Hcode Hmsg. with_text Hmsg. rewrite Hcode.
  simpl in Hin.
  repeat (destruct Hin as [[= <- <-]|Hin]; [eexists; split; reflexivity|]).
  done.
Qed.

(** Code 10020 (INVALID_OBJECT_NAME) together with status 500 is an
    invalid key, not an internal error. *)
Lemma mapError_code_priority_witness :
  let error := JObj {[ "code" := JNum 10020; "status" := JNum 500;
                       "message" := JStr "Invalid key" ]} in
  Get error "status" = JNum 500 /\
  exists e, R2Bucket.mapError error op_put (Some "") = Normal e /\
            R2Bucket._tag e = "R2InvalidKeyError".
Proof.
  intros error. split; [reflexivity|].
  apply (mapError_code_priority error op_put (Some "") 10020
           "R2InvalidKeyError" "Invalid key").
  - simpl. tauto.
  - reflexivity.
  - reflexivity.
Defined.


Lemma stringMessage_textualMessage (error : JsValue) :
  stringMessage error = true -> textualMessage error = true.
Proof.
  unfold stringMessage, textualMessage.
  destruct error as [| | | | | |props]; try done.
  by destruct (props !! "message") as [[]|].
Qed.




(** The equations behind [recognizedCode error = false] and
    [recognizedStatus error = false], one per case label. *)
Lemma unrecognized_code (error : JsValue) :
  recognizedCode error = false ->
  Forall (fun entry => (Get error "code" === fst entry) = false) codeTable.
Proof.
  unfold recognizedCode. intros H. apply Forall_forall. intros entry Hin.
  destruct (Get error "code" === fst entry) eqn:E; [|done].
  assert (existsb (fun entry => Get error "code" === fst entry) codeTable
          = true) as Hex; [|congruence].
  apply existsb_exists. exists entry. split; [|done].
  by apply list_elem_of_In.
Qed.

Lemma unrecognized_status (error : JsValue) :
  recognizedStatus error = false ->
  Forall (fun s => (Get error "status" === s) = false) statusCases.
Proof.
  unfold recognizedStatus. intros H. apply Forall_forall. intros s Hin.
  destruct (Get error "status" === s) eqn:E; [|done].
  assert (existsb (fun s => Get error "status" === s) statusCases = true)
    as Hex; [|congruence].
  apply existsb_exists. exists s. split; [|done].
  by apply list_elem_of_In.
Qed.

(** With neither a recognized code nor a recognized status, only the three
    message tests of the last stage decide. *)
Lemma mapError_message_detection (error : JsValue) (operation : R2Operation)
    (key : option string) (m : string) :
  recognizedCode error = false ->
  recognizedStatus error = false ->
  rawMessage error = JStr m ->
  R2Bucket.mapError error operation key =
  Normal
    (if String_includes m "NoSuchBucket"
     then R2Bucket.R2BucketNotFoundError operation None
     else if String_includes m "Please enable" ||
             String_includes m "not entitled"
     then R2Bucket.R2NotEnabledError operation
     else if String_includes m "TooMuchConcurrency" ||
             String_includes m "concurrency"
     then R2Bucket.R2ConcurrencyError key operation m
     else R2Bucket.R2NetworkError key operation m error).
Proof.
  intros Hcode Hstatus Hmsg. with_text Hmsg.
  skip_switch Hcode unrecognized_code.
  skip_switch Hstatus unrecognized_status.
  evaluate.
  repeat (decide_test; evaluate); reflexivity.
Qed.

(** C3. With status 400 and no recognized code, a message that mentions
    "key" together with "empty" or "invalid" is an invalid key even when it
    also mentions "multipart": the key test comes first. *)
Theorem mapError_400_key_before_multipart (error : JsValue)
    (operation : R2Operation) (key : option string) (m : string) :
  Get error "status" = JNum 400 ->
  recognizedCode error = false ->
  rawMessage error = JStr m ->
  String_includes m "key" = true ->
  String_includes m "empty" = true \/ String_includes m "invalid" = true ->
  String_includes m "multipart" = true ->
  R2Bucket.mapError error operation key =
  Normal (R2Bucket.R2InvalidKeyError (default "" key) operation m).
Proof.
  intros Hstatus Hcode Hmsg Hkey Hwhy _. with_text Hmsg.
  skip_switch Hcode unrecognized_code.
  rewrite Hstatus. cbn [strictEqNum Z.eqb Pos.eqb orb]. evaluate.
  rewrite Hkey.
  destruct Hwhy as [Hempty|Hinvalid].
  - by rewrite Hempty.
  - destruct (String_includes m "empty"); [done|]. by rewrite Hinvalid.
Qed.

Lemma mapError_400_key_before_multipart_witness :
  let m := "invalid key for multipart upload" in
  let error := JObj {[ "status" := JNum 400; "message" := JStr m ]} in
  (String_includes m "key" = true /\ String_includes m "multipart" = true) /\
  R2Bucket.mapError error op_uploadPart (Some "a/b") =
  Normal (R2Bucket.R2InvalidKeyError "a/b" op_uploadPart m).
Proof.
  intros m error. split; [split; reflexivity|].
  apply (mapError_400_key_before_multipart error op_uploadPart (Some "a/b") m).
  - reflexivity.
  - reflexivity.
  - reflexivity.
  - reflexivity.
  - right. reflexivity.
  - reflexivity.
Defined.

(** C4, as stated, fails: without code and status, a message about an empty
    key is not an invalid key but the network fallback. *)
Lemma mapError_catch_all_ignores_key_keyword :
  let m := "key is empty" in
  let error := JObj {[ "message" := JStr m ]} in
  Get error "code" = JUndefined /\ Get error "status" = JUndefined /\
  String_includes m "key" = true /\ String_includes m "empty" = true /\
  R2Bucket.mapError error op_put None =
  Normal (R2Bucket.R2NetworkError None op_put m error) /\
  ~ (exists e, R2Bucket.mapError error op_put None = Normal e /\
               R2Bucket._tag e = "R2InvalidKeyError").
Proof.
  intros m error. repeat (split; [reflexivity|]).
  intros [e [He Htag]]. vm_compute in He. injection He as <-. discriminate.
Qed.

(** C4, amended. With neither a recognized code nor a recognized status the
    last stage consults three keyword groups only, in this order: the missing
    bucket, the feature not being enabled, concurrency; anything else is the
    network fallback. *)
Theorem mapError_catch_all_keywords (error : JsValue)
    (operation : R2Operation) (key : option string) (m : string) :
  recognizedCode error = false ->
  recognizedStatus error = false ->
  rawMessage error = JStr m ->
  exists e,
    R2Bucket.mapError error operation key = Normal e /\
    R2Bucket._tag e =
      if String_includes m "NoSuchBucket" then "R2BucketNotFoundError"
      else if String_includes m "Please enable" ||
              String_includes m "not entitled" then "R2NotEnabledError"
      else if String_includes m "TooMuchConcurrency" ||
              String_includes m "concurrency" then "R2ConcurrencyError"
      else "R2NetworkError".
Proof.
  intros Hcode Hstatus Hmsg.
  rewrite (mapError_message_detection _ operation key _ Hcode Hstatus Hmsg).
  eexists. split; [reflexivity|].
  repeat (decide_test; cbn [orb]); reflexivity.
Qed.

Lemma mapError_catch_all_keywords_witness :
  let error := JObj {[ "message" := JStr "key is empty" ]} in
  exists e,
    R2Bucket.mapError error op_put None = Normal e /\
    R2Bucket._tag e = "R2NetworkError".
Proof.
  intros error.
  apply (mapError_catch_all_keywords error op_put None "key is empty");
    reflexivity.
Defined.

(** C5, as stated, fails: the scan is case-sensitive, so two messages with
    the same lowercase form can be classified differently. *)
Lemma mapError_400_case_sensitive :
  let e1 := JObj {[ "status" := JNum 400; "message" := JStr "Key is Empty" ]} in
  let e2 := JObj {[ "status" := JNum 400; "message" := JStr "key is empty" ]} in
  toLowerCase "Key is Empty" = toLowerCase "key is empty" /\
  R2Bucket.mapError e1 op_put None =
    Normal (R2Bucket.R2InvalidArgumentError op_put "Key is Empty" None) /\
  R2Bucket.mapError e2 op_put None =
    Normal (R2Bucket.R2InvalidKeyError "" op_put "key is empty").
Proof. intros e1 e2. repeat split; reflexivity. Qed.

(** C5, amended. With status 400 and no recognized code the result depends
    on the message as written, and on nothing else of the failure: two such
    failures with the same message text are classified identically. *)
Theorem mapError_400_depends_on_message (e1 e2 : JsValue)
    (operation : R2Operation) (key : option string) (m : string) :
  Get e1 "status" = JNum 400 -> recognizedCode e1 = false ->
  Get e2 "status" = JNum 400 -> recognizedCode e2 = false ->
  rawMessage e1 = JStr m -> rawMessage e2 = JStr m ->
  R2Bucket.mapError e1 operation key = R2Bucket.mapError e2 operation key.
Proof.
  intros Hs1 Hc1 Hs2 Hc2 Hm1 Hm2. with_text Hm1. rewrite Hm2.
  skip_switch Hc1 unrecognized_code.
  skip_switch Hc2 unrecognized_code.
  rewrite Hs1, Hs2. reflexivity.
Qed.

Lemma mapError_400_depends_on_message_witness :
  let e1 := JObj {[ "status" := JNum 400; "message" := JStr "key is empty" ]} in
  let e2 := JObj {[ "status" := JNum 400; "code" := JNum 7;
                    "message" := JStr "key is empty"; "retry" := JBool true ]} in
  R2Bucket.mapError e1 op_get (Some "k") =
  R2Bucket.mapError e2 op_get (Some "k").
Proof.
  intros e1 e2.
  apply (mapError_400_depends_on_message e1 e2 op_get (Some "k")
           "key is empty"); reflexivity.
Defined.

(** C8. A failure with no recognized code, no recognized status (599, say)
    and none of the keywords of the last stage in its message is a network
    error whose [cause] is the failure itself and whose [reason] is its
    message. *)
Theorem mapError_fallback_network (error : JsValue)
    (operation : R2Operation) (key : option string) (m : string) :
  recognizedCode error = false ->
  recognizedStatus error = false ->
  rawMessage error = JStr m ->
  mentionsAny m catchAllKeywords = false ->
  R2Bucket.mapError error operation key =
  Normal (R2Bucket.R2NetworkError key operation m error).
Proof.
  intros Hcode Hstatus Hmsg Hnone.
  rewrite (mapError_message_detection _ operation key _ Hcode Hstatus Hmsg).
  cbn [mentionsAny catchAllKeywords existsb] in Hnone.
  repeat (apply orb_false_elim in Hnone as [? Hnone]).
  repeat match goal with
  | E : String_includes m _ = false |- _ => rewrite E; clear E
  end.
  reflexivity.
Qed.

Lemma mapError_fallback_network_witness :
  let error := JObj {[ "status" := JNum 599;
                       "message" := JStr "connection reset" ]} in
  R2Bucket.mapError error op_get (Some "k") =
  Normal (R2Bucket.R2NetworkError (Some "k") op_get "connection reset" error).
Proof.
  intros error.
  apply (mapError_fallback_network error op_get (Some "k") "connection reset");
    reflexivity.
Defined.

(** ** Worked cases *)

(** The end-to-end scenarios of the specification. *)
Example scenario_invalid_key :
  R2Bucket.mapError
    (JObj {[ "code" := JNum 10020; "message" := JStr "Invalid key" ]})
    op_put (Some "") =
  Normal (R2Bucket.R2InvalidKeyError "" op_put "Invalid key").
Proof. reflexivity. Qed.

Example scenario_rate_limited :
  R2Bucket.mapError (JObj {[ "status" := JNum 429 ]}) op_put (Some "counter") =
  Normal (R2Bucket.R2RateLimitError "counter" op_put None).
Proof. reflexivity. Qed.

Example scenario_multipart :
  R2Bucket.mapError
    (JObj {[ "status" := JNum 400;
             "message" := JStr "multipart upload part invalid" ]})
    op_uploadPart None =
  Normal (R2Bucket.R2MultipartError None op_uploadPart
            "multipart upload part invalid" None None).
Proof. reflexivity. Qed.

(** Failures that are not objects are classified by [String(error)]. *)
Example thrown_string :
  R2Bucket.mapError (JStr "NoSuchBucket: photos") op_list None =
  Normal (R2Bucket.R2BucketNotFoundError op_list None).
Proof. reflexivity. Qed.

Example thrown_undefined :
  R2Bucket.mapError JUndefined op_get (Some "k") =
  Normal (R2Bucket.R2NetworkError (Some "k") op_get "undefined" JUndefined).
Proof. reflexivity. Qed.

(** Why the statements above ask for a textual message: a [message]
    property that is a number has no [includes] method, and is no
    [Schema.String] either. *)
Example numeric_message_400 :
  R2Bucket.mapError (JObj {[ "status" := JNum 400; "message" := JNum 3 ]})
    op_put None = Throw TypeError.
Proof. reflexivity. Qed.

Example numeric_message_500 :
  R2Bucket.mapError (JObj {[ "status" := JNum 500; "message" := JNum 3 ]})
    op_put None = Throw ParseError.
Proof. reflexivity. Qed.

(** ** The two revisions *)

Lemma strictEqNum_true (v : JsValue) (n : Z) :
  (v === n) = true -> v = JNum n.
Proof.
  destruct v; cbn; try discriminate. intros H. f_equal. by apply Z.eqb_eq.
Qed.

(** C6. The two revisions of the cascade disagree: a failure with status
    413 whose message does not mention metadata is a network error for the
    first revision and an oversized object for the second; and the second
    revision's union has no class tagged ObjectTooSmall, BadDigest,
    InvalidMaxKeys or InvalidRange, each of which the first revision has. *)
Theorem revisions_diverge :
  let error := JObj {[ "status" := JNum 413;
                       "message" := JStr "Entity too large" ]} in
  (String_includes "Entity too large" "metadata" = false /\
   String_includes "Entity too large" "Metadata" = false /\
   R2Bucket.mapError error op_put (Some "k") =
     Normal (R2Bucket.R2NetworkError (Some "k") op_put "Entity too large"
               error) /\
   R2BucketRev2.mapError error op_put (Some "k") =
     Normal (R2BucketRev2.R2ObjectTooLargeError "k" op_put None None)) /\
  (forall e : R2BucketRev2.R2BucketError,
     ~ In (R2BucketRev2._tag e) granularTags) /\
  (forall tag, In tag granularTags ->
     exists e : R2Bucket.R2BucketError, R2Bucket._tag e = tag).
Proof.
  intros error. split; [repeat split; reflexivity|]. split.
  - intros e Hin. destruct e; cbn in Hin; intuition discriminate.
  - intros tag Hin. cbn in Hin.
    destruct Hin as [<-|[<-|[<-|[<-|[]]]]].
    + by exists (R2Bucket.R2ObjectTooSmallError "" op_put None None).
    + by exists (R2Bucket.R2BadDigestError "" op_put "" None).
    + by exists (R2Bucket.R2InvalidMaxKeysError op_list None).
    + by exists (R2Bucket.R2InvalidRangeError "" op_get "").
Qed.

(** The disagreement at status 413 is general: unless the message names a
    missing bucket or asks to enable R2, the second revision answers with
    a metadata or size error, which the first revision never does there. *)
Lemma revisions_diverge_at_413 (error : JsValue) (operation : R2Operation)
    (key : option string) (m : string) :
  Get error "status" = JNum 413 ->
  recognizedCode error = false ->
  rawMessage error = JStr m ->
  String_includes m "NoSuchBucket" = false ->
  String_includes m "Please enable" = false ->
  exists e1 e2,
    R2Bucket.mapError error operation key = Normal e1 /\
    R2BucketRev2.mapError error operation key = Normal e2 /\
    R2Bucket._tag e1 <> R2BucketRev2._tag e2.
Proof.
  intros Hstatus Hcode Hmsg Hbucket Henable.
  assert (recognizedStatus error = false) as Hunknown.
  { unfold recognizedStatus. by rewrite Hstatus. }
  rewrite (mapError_message_detection _ operation key _ Hcode Hunknown Hmsg).
  pose proof (unrecognized_code _ Hcode) as F. unfold codeTable in F.
  apply Forall_forall with (x := (10006, "R2BucketNotFoundError")) in F as E1;
    [|cbn; rewrite !elem_of_cons; tauto].
  apply Forall_forall with (x := (10042, "R2NotEnabledError")) in F as E2;
    [|cbn; rewrite !elem_of_cons; tauto].
  cbn [fst] in E1, E2. clear F.
  with_text Hmsg. rewrite E1, E2, Hstatus.
  cbn [strictEqNum Z.eqb Pos.eqb orb]. evaluate.
  rewrite Hbucket, Henable.
  destruct (String_includes m "metadata"); evaluate;
    [|destruct (String_includes m "Metadata"); evaluate];
    (eexists; eexists; split; [reflexivity|split; [reflexivity|]]);
    repeat (decide_test; cbn [orb]); discriminate.
Qed.

(** C10. In both revisions a rate-limit error comes from the status-429
    case only; it never carries a [retryAfter], and its key is the supplied
    key, or the empty string when none was supplied. *)
Theorem rate_limit_fields (error : JsValue) (operation : R2Operation)
    (key : option string) :
  (forall k o r,
     R2Bucket.mapError error operation key =
       Normal (R2Bucket.R2RateLimitError k o r) ->
     r = None /\ k = default "" key /\ o = operation /\
     Get error "status" = JNum 429) /\
  (forall k o r,
     R2BucketRev2.mapError error operation key =
       Normal (R2BucketRev2.R2RateLimitError k o r) ->
     r = None /\ k = default "" key /\ o = operation /\
     Get error "status" = JNum 429).
Proof.
  split; intros k o r H.
  - unfold R2Bucket.mapError, R2Bucket.extractReason in H. cbv zeta in H.
    destruct (Get error "message" ?? JStr (ToString error));
      repeat branch_in H; try discriminate H;
      injection H as <- <- <-;
      repeat split; by apply strictEqNum_true.
  - unfold R2BucketRev2.mapError, R2BucketRev2.extractReason in H.
    cbv zeta in H.
    destruct (Get error "message" ?? JStr (ToString error));
      repeat branch_in H; try discriminate H;
      injection H as <- <- <-;
      repeat split; by apply strictEqNum_true.
Qed.

Lemma rate_limit_fields_witness :
  let error := JObj {[ "status" := JNum 429 ]} in
  (R2Bucket.mapError error op_put (Some "counter") =
     Normal (R2Bucket.R2RateLimitError "counter" op_put None) /\
   R2BucketRev2.mapError error op_put (Some "counter") =
     Normal (R2BucketRev2.R2RateLimitError "counter" op_put None)) /\
  ((None : option Z) = None /\ "counter" = default "" (Some "counter") /\
   op_put = op_put /\ Get error "status" = JNum 429) /\
  ((None : option Z) = None /\ "counter" = default "" (Some "counter") /\
   op_put = op_put /\ Get error "status" = JNum 429).
Proof.
  intros error.
  destruct (rate_limit_fields error op_put (Some "counter")) as [H1 H2].
  split; [split; reflexivity|]. split.
  - apply (H1 "counter" op_put None). reflexivity.
  - apply (H2 "counter" op_put None). reflexivity.
Defined.

(** ** The optional-result adapter *)







(** ** The environment resolver *)


Section MakeEnvFacts.

Variable makeKVNamespace : JsValue -> JsValue.




End MakeEnvFacts.


(** Why ["~raw"] has to be free: no result can hold both a binding named
    ["~raw"] and the raw environment under that name, and the loop, which
    runs after the raw environment was stored, keeps the binding. *)
Lemma makeEnv_raw_overwritten :
  let env : gmap string JsValue := {[ "~raw" := JStr "mine" ]} in
  Env.makeEnv sampleWrapper env !! "~raw" = Some (JStr "mine") /\
  Env.makeEnv sampleWrapper env !! "~raw" <> Some (JObj env).
Proof.
  intros env. assert (Env.makeEnv sampleWrapper env !! "~raw"
                      = Some (JStr "mine")) as H by reflexivity.
  split; [done|]. rewrite H. discriminate.
Qed.

(** * Further properties *)

(** ** What every result of [mapError] carries *)

(** The fields of a result of the first revision's [mapError]. *)
Lemma mapError_fields (error : JsValue) (operation : R2Operation)
    (key : option string) (e : R2Bucket.R2BucketError) :
  R2Bucket.mapError error operation key = Normal e ->
  R2Error.operation e = operation /\
  (forall k, R2Error.key e = Some k -> k = default "" key) /\
  (forall k, key = Some k ->
     R2Error.key e = Some k \/ In (R2Bucket._tag e) keylessTags) /\
  R2Error.details e = [].
Proof.
  intros H; paths H Hm;
    (split; [reflexivity|]; split; [|split; [|reflexivity]];
     intros k Hk; cbn in *;
     [ first [discriminate Hk | by injection Hk as <- | by rewrite Hk]
     | subst key; cbn; tauto ]).
Qed.

(** The fields of a result of the second revision's [mapError]. *)
Lemma mapError_rev2_fields (error : JsValue) (operation : R2Operation)
    (key : option string) (e : R2BucketRev2.R2BucketError) :
  R2BucketRev2.mapError error operation key = Normal e ->
  R2Error.operation (R2Error.ofRev2 e) = operation /\
  (forall k, R2Error.key (R2Error.ofRev2 e) = Some k ->
     k = default "" key) /\
  (forall k, key = Some k ->
     R2Error.key (R2Error.ofRev2 e) = Some k \/
     In (R2BucketRev2._tag e) keylessTags) /\
  R2Error.details (R2Error.ofRev2 e) = [].
Proof.
  intros H; paths H Hm;
    (split; [reflexivity|]; split; [|split; [|reflexivity]];
     intros k Hk; cbn in *;
     [ first [discriminate Hk | by injection Hk as <- | by rewrite Hk]
     | subst key; cbn; tauto ]).
Qed.

(** X1. Both revisions attribute the error to the operation that was
    attempted: the [operation] field of the result is the argument. *)
Theorem mapError_keeps_operation (error : JsValue) (operation : R2Operation)
    (key : option string) :
  (forall e, R2Bucket.mapError error operation key = Normal e ->
             R2Error.operation e = operation) /\
  (forall e, R2BucketRev2.mapError error operation key = Normal e ->
             R2Error.operation (R2Error.ofRev2 e) = operation).
Proof.
  split; intros e H.
  - by destruct (mapError_fields _ _ _ _ H) as (? & _).
  - by destruct (mapError_rev2_fields _ _ _ _ H) as (? & _).
Qed.

(** X2. Both revisions attribute the error to the supplied key only: a key
    named by the result is the argument (the empty string when there was
    none), and a supplied key is always named unless the class of the
    result has no [key] field. *)
Theorem mapError_key_attribution (error : JsValue) (operation : R2Operation)
    (key : option string) :
  (forall e, R2Bucket.mapError error operation key = Normal e ->
     (forall k, R2Error.key e = Some k -> k = default "" key) /\
     (forall k, key = Some k ->
        R2Error.key e = Some k \/ In (R2Bucket._tag e) keylessTags)) /\
  (forall e, R2BucketRev2.mapError error operation key = Normal e ->
     (forall k, R2Error.key (R2Error.ofRev2 e) = Some k ->
        k = default "" key) /\
     (forall k, key = Some k ->
        R2Error.key (R2Error.ofRev2 e) = Some k \/
        In (R2BucketRev2._tag e) keylessTags)).
Proof.
  split; intros e H.
  - by destruct (mapError_fields _ _ _ _ H) as (_ & ? & ? & _).
  - by destruct (mapError_rev2_fields _ _ _ _ H) as (_ & ? & ? & _).
Qed.

Lemma mapError_key_attribution_witness :
  let error := JObj {[ "status" := JNum 412; "message" := JStr "etag" ]} in
  let e := R2Bucket.R2PreconditionFailedError "a" op_put "etag" in
  R2Bucket.mapError error op_put (Some "a") = Normal e /\
  (forall k, R2Error.key e = Some k -> k = "a").
Proof.
  intros error e. split; [reflexivity|].
  apply (proj1 (proj1 (mapError_key_attribution error op_put (Some "a"))
                  e eq_refl)).
Defined.

(** X3. Neither revision ever fills an optional diagnostic field: no
    [retryAfter], [sizeBytes], [limit], [uploadId], [partNumber],
    [bucketName] or [algorithm] is set on a result of [mapError]. *)
Theorem mapError_sets_no_details (error : JsValue) (operation : R2Operation)
    (key : option string) :
  (forall e, R2Bucket.mapError error operation key = Normal e ->
             R2Error.details e = []) /\
  (forall e, R2BucketRev2.mapError error operation key = Normal e ->
             R2Error.details (R2Error.ofRev2 e) = []).
Proof.
  split; intros e H.
  - by destruct (mapError_fields _ _ _ _ H) as (_ & _ & _ & ?).
  - by destruct (mapError_rev2_fields _ _ _ _ H) as (_ & _ & _ & ?).
Qed.
(** X4. In both revisions a network error always wraps the failure it was
    made from: its [cause] is the raw failure itself, its [reason] is the
    failure's message, and key and operation are the arguments. *)
Theorem mapError_network_error_cause (error : JsValue)
    (operation : R2Operation) (key : option string) :
  (forall k o r c,
     R2Bucket.mapError error operation key =
       Normal (R2Bucket.R2NetworkError k o r c) ->
     c = error /\ rawMessage error = JStr r /\ k = key /\ o = operation) /\
  (forall k o r c,
     R2BucketRev2.mapError error operation key =
       Normal (R2BucketRev2.R2NetworkError k o r c) ->
     c = error /\ rawMessage error = JStr r /\ k = key /\ o = operation).
Proof.
  split; intros k o r c H.
  - unfold R2Bucket.mapError, R2Bucket.extractReason in H. cbv zeta in H.
    change (Get error "message" ?? JStr (ToString error))
      with (rawMessage error) in H.
    destruct (rawMessage error) eqn:Hm;
      repeat branch_in H; try discriminate H;
      by injection H as <- <- <- <-.
  - unfold R2BucketRev2.mapError, R2BucketRev2.extractReason in H.
    cbv zeta in H.
    change (Get error "message" ?? JStr (ToString error))
      with (rawMessage error) in H.
    destruct (rawMessage error) eqn:Hm;
      repeat branch_in H; try discriminate H;
      by injection H as <- <- <- <-.
Qed.

Lemma mapError_network_error_cause_witness :
  let error := JStr "socket hang up" in
  error = error /\ rawMessage error = JStr "socket hang up" /\
  Some "k" = Some "k" /\ op_get = op_get.
Proof.
  intros error.
  apply (proj1 (mapError_network_error_cause error op_get (Some "k"))
           (Some "k") op_get "socket hang up" error).
  reflexivity.
Defined.

(** ** The status stage of the first revision *)

(** X5. Without a recognized code, a status of 429, 412, 416, 401, 403 or
    500 decides alone: the class is the one of the status case, whatever
    keywords the message contains. *)
Theorem mapError_status_priority (error : JsValue) (operation : R2Operation)
    (key : option string) (s : Z) (tag m : string) :
  In (s, tag) statusTable ->
  recognizedCode error = false ->
  Get error "status" = JNum s ->
  rawMessage error = JStr m ->
  exists e, R2Bucket.mapError error operation key = Normal e /\
            R2Bucket._tag e = tag.
Proof.
  intros Hin Hcode Hstatus Hmsg. with_text Hmsg.
  skip_switch Hcode unrecognized_code. rewrite Hstatus.
  simpl in Hin.
  repeat (destruct Hin as [[= <- <-]|Hin]; [eexists; split; reflexivity|]).
  done.
Qed.

Lemma mapError_status_priority_witness :
  let m := "NoSuchBucket: concurrency key is empty" in
  let error := JObj {[ "status" := JNum 500; "message" := JStr m ]} in
  mentionsAny m catchAllKeywords = true /\
  exists e, R2Bucket.mapError error op_get None = Normal e /\
            R2Bucket._tag e = "R2InternalError".
Proof.
  intros m error. split; [reflexivity|].
  apply (mapError_status_priority error op_get None 500 "R2InternalError" m).
  - simpl. tauto.
  - reflexivity.
  - reflexivity.
  - reflexivity.
Defined.

(** The tests of case 400, as equations on the message. *)
Lemma no_keywords400 (m : string) :
  mentionsAny m keywords400 = false ->
  Forall (fun keyword => String_includes m keyword = false) keywords400.
Proof.
  unfold mentionsAny. intros H. apply Forall_forall. intros keyword Hin.
  destruct (String_includes m keyword) eqn:E; [|done].
  assert (existsb (String_includes m) keywords400 = true) as Hex;
    [|congruence].
  apply existsb_exists. exists keyword. split; [|done].
  by apply list_elem_of_In.
Qed.

(** X6. Status 400 without a recognized code and without any keyword of
    case 400 is the generic invalid argument, carrying the message and the
    key; keywords of the last stage such as "NoSuchBucket" or
    "concurrency" play no role under status 400. *)
Theorem mapError_400_default (error : JsValue) (operation : R2Operation)
    (key : option string) (m : string) :
  Get error "status" = JNum 400 ->
  recognizedCode error = false ->
  rawMessage error = JStr m ->
  mentionsKey m = false ->
  mentionsAny m keywords400 = false ->
  R2Bucket.mapError error operation key =
  Normal (R2Bucket.R2InvalidArgumentError operation m key).
Proof.
  intros Hstatus Hcode Hmsg Hkey Hnone. with_text Hmsg.
  skip_switch Hcode unrecognized_code.
  rewrite Hstatus. cbn [strictEqNum Z.eqb Pos.eqb orb]. evaluate.
  pose proof (no_keywords400 _ Hnone) as F. unfold keywords400 in F.
  repeat match type of F with
  | Forall _ (_ :: _) =>
      let E := fresh "E" in
      apply Forall_cons in F as [E F]; rewrite ?E; clear E
  end.
  unfold mentionsKey in Hkey.
  destruct (String_includes m "key"); [|reflexivity].
  cbn [andb] in Hkey. apply orb_false_elim in Hkey as [-> ->]. reflexivity.
Qed.

Lemma mapError_400_default_witness :
  let m := "NoSuchBucket: concurrency" in
  let error := JObj {[ "status" := JNum 400; "message" := JStr m ]} in
  mentionsAny m catchAllKeywords = true /\
  R2Bucket.mapError error op_get (Some "k") =
  Normal (R2Bucket.R2InvalidArgumentError op_get m (Some "k")).
Proof.
  intros m error. split; [reflexivity|].
  apply (mapError_400_default error op_get (Some "k") m); reflexivity.
Defined.

(** X7. Under status 400 without a recognized code the keyword groups are
    tried in one fixed order: key, metadata, multipart, digest, too large,
    too small; the first group that matches names the class, and without a
    match the class is the invalid argument. *)
Theorem mapError_400_keyword_order (error : JsValue)
    (operation : R2Operation) (key : option string) (m : string) :
  Get error "status" = JNum 400 ->
  recognizedCode error = false ->
  rawMessage error = JStr m ->
  exists e,
    R2Bucket.mapError error operation key = Normal e /\
    R2Bucket._tag e =
      if mentionsKey m then "R2InvalidKeyError"
      else if mentionsAny m ["metadata"; "Metadata"] then "R2MetadataError"
      else if mentionsAny m multipartKeywords then "R2MultipartError"
      else if mentionsAny m ["digest"; "checksum"] then "R2BadDigestError"
      else if mentionsAny m ["too large"; "exceeds"]
           then "R2ObjectTooLargeError"
      else if mentionsAny m ["too small"] then "R2ObjectTooSmallError"
      else "R2InvalidArgumentError".
Proof.
  intros Hstatus Hcode Hmsg. with_text Hmsg.
  skip_switch Hcode unrecognized_code.
  rewrite Hstatus. cbn [strictEqNum Z.eqb Pos.eqb orb]. evaluate.
  unfold mentionsKey, mentionsAny, multipartKeywords. cbn [existsb].
  repeat (decide_test; evaluate; cbn [andb orb]);
    eexists; (split; [reflexivity|]); reflexivity.
Qed.

Lemma mapError_400_keyword_order_witness :
  let m := "metadata of upload part too large" in
  let error := JObj {[ "status" := JNum 400; "message" := JStr m ]} in
  exists e, R2Bucket.mapError error op_put (Some "k") = Normal e /\
            R2Bucket._tag e = "R2MetadataError".
Proof.
  intros m error.
  apply (mapError_400_keyword_order error op_put (Some "k") m); reflexivity.
Defined.

(** ** The second revision's [mapError] *)

(** X8. The second revision's [mapError] is total on the failures that
    carry their message as a string and on those that are no object at
    all, like the first. *)
Theorem mapError_rev2_total (error : JsValue) (operation : R2Operation)
    (key : option string) :
  stringMessage error = true ->
  exists e, R2BucketRev2.mapError error operation key = Normal e.
Proof.
  intros Hstring.
  pose proof (stringMessage_textualMessage error Hstring) as Htext.
  destruct (textualMessage_rawMessage _ Htext) as [m Hmsg].
  with_text Hmsg. evaluate.
  repeat branch; eexists; reflexivity.
Qed.

Lemma mapError_rev2_total_witness :
  exists e, R2BucketRev2.mapError (JNum 7) op_list None = Normal e.
Proof. apply (mapError_rev2_total (JNum 7) op_list None). reflexivity. Defined.

(** X9. The two revisions order status and message keyword oppositely: when
    the message names a missing bucket and the status is one of 429, 412,
    416, 401, 403 or 500, the first revision follows the status and the
    second follows the keyword. *)
Theorem revisions_reverse_precedence (error : JsValue)
    (operation : R2Operation) (key : option string) (s : Z)
    (tag m : string) :
  In (s, tag) statusTable ->
  recognizedCode error = false ->
  Get error "status" = JNum s ->
  rawMessage error = JStr m ->
  String_includes m "NoSuchBucket" = true ->
  (exists e, R2Bucket.mapError error operation key = Normal e /\
             R2Bucket._tag e = tag /\ tag <> "R2BucketNotFoundError") /\
  R2BucketRev2.mapError error operation key =
    Normal (R2BucketRev2.R2BucketNotFoundError operation None).
Proof.
  intros Hin Hcode Hstatus Hmsg Hbucket. split.
  - with_text Hmsg. skip_switch Hcode unrecognized_code. rewrite Hstatus.
    simpl in Hin.
    repeat (destruct Hin as [[= <- <-]|Hin];
            [eexists; split; [reflexivity|split; [reflexivity|done]]|]).
    done.
  - with_text Hmsg. evaluate. rewrite Hbucket.
    by destruct (Get error "code" === 10006).
Qed.

Lemma revisions_reverse_precedence_witness :
  let m := "NoSuchBucket" in
  let error := JObj {[ "status" := JNum 403; "message" := JStr m ]} in
  (exists e, R2Bucket.mapError error op_get None = Normal e /\
             R2Bucket._tag e = "R2AuthorizationError" /\
             "R2AuthorizationError" <> "R2BucketNotFoundError") /\
  R2BucketRev2.mapError error op_get None =
    Normal (R2BucketRev2.R2BucketNotFoundError op_get None).
Proof.
  intros m error.
  apply (revisions_reverse_precedence error op_get None 403
           "R2AuthorizationError" m).
  - simpl. tauto.
  - reflexivity.
  - reflexivity.
  - reflexivity.
  - reflexivity.
Defined.

(** X10. In the second revision the statuses 429, 416 and 414 discard the
    message: once the gate for the missing bucket and for R2 not being
    enabled is passed, the result is fixed by status, operation and key,
    with a canned reason for 416 and 414. *)
Theorem mapError_rev2_fixed_status (error : JsValue)
    (operation : R2Operation) (key : option string) (s : Z) (m : string)
    (e : R2BucketRev2.R2BucketError) :
  In (s, e) (statusTableRev2 operation key) ->
  Get error "status" = JNum s ->
  rawMessage error = JStr m ->
  gateRev2 error m = false ->
  R2BucketRev2.mapError error operation key = Normal e.
Proof.
  intros Hin Hstatus Hmsg Hgate. unfold gateRev2 in Hgate.
  apply orb_false_elim in Hgate as [Hgate Henable].
  apply orb_false_elim in Hgate as [Hgate H42].
  apply orb_false_elim in Hgate as [H06 Hbucket].
  with_text Hmsg. evaluate.
  rewrite H06, Hbucket, H42, Henable, Hstatus.
  simpl in Hin.
  repeat (destruct Hin as [[= <- <-]|Hin]; [reflexivity|]).
  done.
Qed.

Lemma mapError_rev2_fixed_status_witness :
  let error := JObj {[ "status" := JNum 414;
                       "message" := JStr "URI too long" ]} in
  R2BucketRev2.mapError error op_get (Some "k") =
  Normal (R2BucketRev2.R2InvalidKeyError "k" op_get
            "Key exceeds 1024 byte limit").
Proof.
  intros error.
  apply (mapError_rev2_fixed_status error op_get (Some "k") 414
           "URI too long").
  - simpl. tauto.
  - reflexivity.
  - reflexivity.
  - reflexivity.
Defined.

(** X11. The revisions also disagree on an unexplained status 400: with no
    recognized code and none of the keywords either revision looks for,
    the first answers with an invalid argument and the second with a
    network error that wraps the failure. *)
Theorem revisions_diverge_at_400 (error : JsValue) (operation : R2Operation)
    (key : option string) (m : string) :
  Get error "status" = JNum 400 ->
  recognizedCode error = false ->
  rawMessage error = JStr m ->
  mentionsKey m = false ->
  mentionsAny m keywords400 = false ->
  mentionsAny m ["NoSuchBucket"; "Please enable"] = false ->
  R2Bucket.mapError error operation key =
    Normal (R2Bucket.R2InvalidArgumentError operation m key) /\
  R2BucketRev2.mapError error operation key =
    Normal (R2BucketRev2.R2NetworkError key operation m error).
Proof.
  intros Hstatus Hcode Hmsg Hkey Hnone Hgate.
  pose proof (no_keywords400 _ Hnone) as F. unfold keywords400 in F.
  cbn [mentionsAny existsb] in Hgate.
  apply orb_false_elim in Hgate as [Hbucket Hgate].
  apply orb_false_elim in Hgate as [Henable _].
  pose proof (unrecognized_code _ Hcode) as C. unfold codeTable in C.
  apply Forall_forall with (x := (10006, "R2BucketNotFoundError")) in C as E1;
    [|cbn; rewrite !elem_of_cons; tauto].
  apply Forall_forall with (x := (10042, "R2NotEnabledError")) in C as E2;
    [|cbn; rewrite !elem_of_cons; tauto].
  cbn [fst] in E1, E2. clear C.
  split.
  - with_text Hmsg. skip_switch Hcode unrecognized_code.
    rewrite Hstatus. cbn [strictEqNum Z.eqb Pos.eqb orb]. evaluate.
    repeat match type of F with
    | Forall _ (_ :: _) =>
        let E := fresh "E" in
        apply Forall_cons in F as [E F]; rewrite ?E; clear E
    end.
    unfold mentionsKey in Hkey.
    destruct (String_includes m "key"); [|reflexivity].
    cbn [andb] in Hkey. apply orb_false_elim in Hkey as [-> ->]. reflexivity.
  - with_text Hmsg. evaluate. rewrite E1, E2, Hbucket, Henable, Hstatus.
    cbn [strictEqNum Z.eqb Pos.eqb orb]. evaluate.
    repeat match type of F with
    | Forall _ (_ :: _) =>
        let E := fresh "E" in
        apply Forall_cons in F as [E F]; rewrite ?E; clear E
    end.
    unfold mentionsKey in Hkey.
    destruct (String_includes m "key"); [|reflexivity].
    cbn [andb] in Hkey. apply orb_false_elim in Hkey as [-> ->]. reflexivity.
Qed.

Lemma revisions_diverge_at_400_witness :
  let error := JObj {[ "status" := JNum 400; "message" := JStr "Bad Request" ]} in
  R2Bucket.mapError error op_put (Some "k") =
    Normal (R2Bucket.R2InvalidArgumentError op_put "Bad Request" (Some "k")) /\
  R2BucketRev2.mapError error op_put (Some "k") =
    Normal (R2BucketRev2.R2NetworkError (Some "k") op_put "Bad Request" error).
Proof.
  intros error.
  apply (revisions_diverge_at_400 error op_put (Some "k") "Bad Request");
    reflexivity.
Defined.

(** ** The [message] getters *)

Lemma append_assoc (s t u : string) :
  ((s ++ t) ++ u)%string = (s ++ (t ++ u))%string.
Proof.
  induction s as [|a s IH]; [reflexivity|].
  rewrite !append_cons_l. by rewrite IH.
Qed.

Lemma append_nil_r (s : string) : (s ++ "")%string = s.
Proof.
  induction s as [|a s IH]; [reflexivity|].
  rewrite append_cons_l. by rewrite IH.
Qed.

Lemma StartsWith_nil (s : string) : StartsWith s "".
Proof. by exists s. Qed.

Lemma StartsWith_refl (s : string) : StartsWith s s.
Proof. exists EmptyString. by rewrite append_nil_r. Qed.

Lemma StartsWith_here (t s : string) : StartsWith (t ++ s) t.
Proof. by exists s. Qed.

Lemma StartsWith_app (x s t : string) :
  StartsWith s t -> StartsWith (x ++ s) (x ++ t).
Proof. intros [post ->]. exists post. by rewrite append_assoc. Qed.

Lemma includes_StartsWith (s t : string) :
  StartsWith s t -> String_includes s t = true.
Proof.
  intros [post ->]. apply String_includes_spec. by exists EmptyString, post.
Qed.

Lemma includes_skip (x s t : string) :
  String_includes s t = true -> String_includes (x ++ s) t = true.
Proof.
  rewrite !String_includes_spec. intros (pre & post & ->).
  exists (x ++ pre)%string, post. by rewrite append_assoc.
Qed.

(** Finds a segment, or a run of adjacent segments, of a concatenation. *)
Ltac starts :=
  first [ apply StartsWith_nil
        | apply StartsWith_refl
        | apply StartsWith_here
        | apply StartsWith_app; starts ].

Ltac segment_search :=
  first [ solve [apply includes_StartsWith; starts]
        | apply includes_skip; segment_search ].

Ltac segment := rewrite ?append_assoc; segment_search.

(** X12. Every message names the operation, except that of an oversized
    object, whose text is the same for every operation. *)
Theorem message_names_operation :
  (forall e : R2Bucket.R2BucketError,
     R2Bucket._tag e <> "R2ObjectTooLargeError" ->
     String_includes (R2Error.message e)
       (R2Error.operationName (R2Error.operation e)) = true) /\
  (forall k op op' sizeBytes limit,
     R2Error.message (R2Bucket.R2ObjectTooLargeError k op sizeBytes limit) =
     R2Error.message (R2Bucket.R2ObjectTooLargeError k op' sizeBytes limit)).
Proof.
  split; [|reflexivity].
  intros e Htag.
  destruct e; cbn [R2Error.message R2Error.operation]; cbv zeta;
    try (by destruct Htag); segment.
Qed.

(** X13. A message quotes the key of its error: whenever the error names a
    non-empty key, the key appears between double quotes. *)
Theorem message_quotes_key (e : R2Bucket.R2BucketError) (k : string) :
  R2Error.key e = Some k ->
  k <> "" ->
  String_includes (R2Error.message e)
    (R2Error.dq ++ k ++ R2Error.dq) = true.
Proof.
  intros Hkey Hk.
  destruct e; cbn [R2Error.key] in Hkey; try discriminate Hkey;
    try (injection Hkey as ->); try subst;
    cbn [R2Error.message]; cbv zeta;
    unfold R2Error.keyMsg;
    (destruct k; [done|]); cbn [R2Error.whenString]; segment.
Qed.

Lemma message_quotes_key_witness :
  String_includes
    (R2Error.message (R2Bucket.R2NetworkError (Some "a/b") op_get "timeout"
                        JNull))
    (R2Error.dq ++ "a/b" ++ R2Error.dq) = true.
Proof.
  apply (message_quotes_key
           (R2Bucket.R2NetworkError (Some "a/b") op_get "timeout" JNull) "a/b").
  - reflexivity.
  - discriminate.
Defined.

(** X14. A message shows the diagnostics of its error: every numeric
    detail that is a safe integer other than zero appears in the text as
    its decimal digits, and every string detail other than the empty string
    appears verbatim. *)
Theorem message_shows_details (e : R2Bucket.R2BucketError) (name : string) :
  (forall n, In (name, JNum n) (R2Error.details e) -> n <> 0 ->
     Z.abs n < safeBound ->
     String_includes (R2Error.message e) (R2Error.numberText n) = true) /\
  (forall s, In (name, JStr s) (R2Error.details e) -> s <> "" ->
     String_includes (R2Error.message e) s = true).
Proof.
  split.
  - intros n Hin Hn _. apply Z.eqb_neq in Hn.
    destruct e; cbn [R2Error.details] in Hin;
      repeat match goal with
      | o : option _ |- _ => destruct o
      end;
      cbn in Hin; intuition (try discriminate);
      repeat match goal with
      | H : (_, _) = (_, _) |- _ => injection H as ? ?; subst
      end;
      cbn [R2Error.message R2Error.whenNumber R2Error.whenDefined];
      cbv zeta; rewrite ?Hn; segment.
  - intros s Hin Hs.
    destruct e; cbn [R2Error.details] in Hin;
      repeat match goal with
      | o : option _ |- _ => destruct o
      end;
      cbn in Hin; intuition (try discriminate);
      repeat match goal with
      | H : (_, _) = (_, _) |- _ => injection H as ? ?; subst
      end;
      (destruct s; [done|]);
      cbn [R2Error.message R2Error.whenString]; cbv zeta; segment.
Qed.

Lemma message_shows_details_witness :
  String_includes
    (R2Error.message
       (R2Bucket.R2RateLimitError "test-key" op_put (Some 1000)))
    (R2Error.numberText 1000) = true /\
  String_includes
    (R2Error.message
       (R2Bucket.R2BucketNotFoundError op_get (Some "my-bucket")))
    "my-bucket" = true.
Proof.
  split.
  - apply (proj1 (message_shows_details
             (R2Bucket.R2RateLimitError "test-key" op_put (Some 1000))
             "retryAfter") 1000); [simpl; tauto | discriminate | reflexivity].
  - apply (proj2 (message_shows_details
             (R2Bucket.R2BucketNotFoundError op_get (Some "my-bucket"))
             "bucketName") "my-bucket"); [simpl; tauto | discriminate].
Defined.

(** X15. The getters test optional numbers in two ways.  A [retryAfter],
    [sizeBytes] or size [limit] of zero is treated as absent and leaves no
    trace in the message; a [partNumber] or MaxKeys [limit] of zero is
    shown like any other number. *)
Theorem message_zero_details (k : string) (ko : option string)
    (op : R2Operation) (reason : string) (uploadId : option string)
    (size part : option Z) :
  (R2Error.message (R2Bucket.R2RateLimitError k op (Some 0)) =
   R2Error.message (R2Bucket.R2RateLimitError k op None) /\
   R2Error.message (R2Bucket.R2ObjectTooLargeError k op (Some 0) (Some 0)) =
   R2Error.message (R2Bucket.R2ObjectTooLargeError k op None None) /\
   R2Error.message (R2Bucket.R2MetadataError k op reason (Some 0)) =
   R2Error.message (R2Bucket.R2MetadataError k op reason None) /\
   R2Error.message (R2Bucket.R2ObjectTooSmallError k op (Some 0) part) =
   R2Error.message (R2Bucket.R2ObjectTooSmallError k op None part)) /\
  (String_includes
     (R2Error.message (R2Bucket.R2MultipartError ko op reason uploadId (Some 0)))
     " (part: 0)" = true /\
   String_includes
     (R2Error.message (R2Bucket.R2ObjectTooSmallError k op size (Some 0)))
     " part 0" = true /\
   String_includes
     (R2Error.message (R2Bucket.R2InvalidMaxKeysError op (Some 0)))
     " (0)" = true).
Proof.
  split; [repeat split; reflexivity|]. split_and!.
  - change " (part: 0)" with (" (part: " ++ R2Error.numberText 0 ++ ")").
    cbn [R2Error.message R2Error.whenDefined]; cbv zeta. segment.
  - change " part 0" with (" part " ++ R2Error.numberText 0).
    cbn [R2Error.message R2Error.whenDefined]; cbv zeta. segment.
  - change " (0)" with (" (" ++ R2Error.numberText 0 ++ ")").
    cbn [R2Error.message R2Error.whenDefined]; cbv zeta. segment.
Qed.

(** ** The operations of [make] *)

Section OperationFacts.

Context {R2Object R2Conditional R2HTTPMetadata CustomMetadata Checksum
         Value Include : Type}.

Abbreviation Bucket :=
  (@Make.NativeBucket R2Object R2Conditional R2HTTPMetadata CustomMetadata
     Checksum Value Include).







Abbreviation Upload := (@Make.NativeMultipartUpload R2Object Value).

(** X19. A multipart session keeps the identity of the provider's upload,
    and every failure of its three methods is attributed to the method's
    own operation and to the upload's key. *)
Theorem multipart_session_attribution (upload : Upload) :
  let session := Make.wrapMultipartUpload R2Bucket.mapError upload in
  Make.key session = Make.upload_key upload /\
  Make.uploadId session = Make.upload_uploadId upload /\
  (forall n body e, Make.uploadPart session n body = Failure e ->
     R2Error.operation e = op_uploadPart /\
     (forall k, R2Error.key e = Some k -> k = Make.upload_key upload)) /\
  (forall parts e, Make.complete session parts = Failure e ->
     R2Error.operation e = op_completeMultipartUpload /\
     (forall k, R2Error.key e = Some k -> k = Make.upload_key upload)) /\
  (forall e, Make.abort session = Failure e ->
     R2Error.operation e = op_abortMultipartUpload /\
     (forall k, R2Error.key e = Some k -> k = Make.upload_key upload)).
Proof.
  intros session. split_and!; [reflexivity..| | |].
  - intros n body e. cbn. unfold tryPromise, await_then.
    destruct (Make.upload_uploadPart upload n body) as [?|error];
      [discriminate|].
    destruct (R2Bucket.mapError error op_uploadPart _) as [e'|] eqn:He;
      [|discriminate].
    intros [= <-]. by destruct (mapError_fields _ _ _ _ He) as (? & ? & _).
  - intros parts e. cbn. unfold tryPromise, await_then.
    destruct (Make.upload_complete upload parts) as [?|error];
      [discriminate|].
    destruct (R2Bucket.mapError error op_completeMultipartUpload _)
      as [e'|] eqn:He; [|discriminate].
    intros [= <-]. by destruct (mapError_fields _ _ _ _ He) as (? & ? & _).
  - intros e. cbn. unfold tryPromise, await_then.
    destruct (Make.upload_abort upload) as [?|error]; [discriminate|].
    destruct (R2Bucket.mapError error op_abortMultipartUpload _)
      as [e'|] eqn:He; [|discriminate].
    intros [= <-]. by destruct (mapError_fields _ _ _ _ He) as (? & ? & _).
Qed.



End OperationFacts.




Lemma multipart_session_attribution_witness :
  let session := Make.wrapMultipartUpload R2Bucket.mapError sampleUpload in
  let e := R2Bucket.R2MultipartError (Some "video.mp4") op_uploadPart
             "One or more of the specified parts could not be found"
             None None in
  Make.uploadPart session 4 "bytes" = Failure e /\
  R2Error.operation e = op_uploadPart /\
  (forall k, R2Error.key e = Some k -> k = "video.mp4").
Proof.
  intros session e. split; [reflexivity|].
  destruct (multipart_session_attribution sampleUpload)
    as (_ & _ & Hpart & _).
  apply (Hpart 4 "bytes" e). reflexivity.
Defined.


(** ** The environment resolver, for every environment *)



(** ** Where a failed precondition can come from *)

(** X22. A precondition-failed error has exactly two origins in the first
    revision, the provider code 10031 and the status 412, and one in the
    second, the status 412; its [condition] is the failure's message and
    its key the supplied key. *)
Theorem precondition_failed_origin (error : JsValue)
    (operation : R2Operation) (key : option string) :
  (forall k o c,
     R2Bucket.mapError error operation key =
       Normal (R2Bucket.R2PreconditionFailedError k o c) ->
     (Get error "code" = JNum 10031 \/ Get error "status" = JNum 412) /\
     rawMessage error = JStr c /\ k = default "" key /\ o = operation) /\
  (forall k o c,
     R2BucketRev2.mapError error operation key =
       Normal (R2BucketRev2.R2PreconditionFailedError k o c) ->
     Get error "status" = JNum 412 /\
     rawMessage error = JStr c /\ k = default "" key /\ o = operation).
Proof.
  split; intros k o c H.
  - unfold R2Bucket.mapError, R2Bucket.extractReason in H. cbv zeta in H.
    change (Get error "message" ?? JStr (ToString error))
      with (rawMessage error) in H.
    destruct (rawMessage error) eqn:Hm;
      repeat branch_in H; try discriminate H;
      injection H as <- <- <-;
      (split; [|done]);
      first [ left; by apply strictEqNum_true
            | right; by apply strictEqNum_true ].
  - unfold R2BucketRev2.mapError, R2BucketRev2.extractReason in H.
    cbv zeta in H.
    change (Get error "message" ?? JStr (ToString error))
      with (rawMessage error) in H.
    destruct (rawMessage error) eqn:Hm;
      repeat branch_in H; try discriminate H;
      injection H as <- <- <-;
      (split; [|done]); by apply strictEqNum_true.
Qed.

Lemma precondition_failed_origin_witness :
  let error := JObj {[ "code" := JNum 10031;
                       "message" := JStr "etagMatches failed" ]} in
  (Get error "code" = JNum 10031 \/ Get error "status" = JNum 412) /\
  rawMessage error = JStr "etagMatches failed" /\
  "a" = default "" (Some "a") /\ op_put = op_put.
Proof.
  intros error.
  apply (proj1 (precondition_failed_origin error op_put (Some "a"))
           "a" op_put "etagMatches failed").
  reflexivity.
Defined.

(** ** The unit tests of the error classes, for all field values *)

Lemma includes_within (s u t : string) :
  String_includes s t = true -> String_includes (s ++ u) t = true.
Proof.
  rewrite !String_includes_spec. intros (pre & post & ->).
  exists pre, (post ++ u)%string. by rewrite !append_assoc.
Qed.

(** Finds a phrase inside one literal segment of a concatenation. *)
Ltac within_segment :=
  first [ solve [apply includes_within; reflexivity]
        | apply includes_skip; within_segment ].

(** X23. The phrases the unit tests look for are in the message whatever
    the fields of the error are: the tests' assertions on "rate limit",
    "concurrency", "Invalid R2 key", "precondition failed", "not found",
    "not enabled", "authorization failed" and "network error" hold for
    every instance of their class. *)
Theorem message_test_phrases (e : R2BucketRev2.R2BucketError)
    (phrase : string) :
  testedPhrase e = Some phrase ->
  String_includes (R2Error.message (R2Error.ofRev2 e)) phrase = true.
Proof.
  destruct e; cbn [testedPhrase]; intros [= <-];
    cbn [R2Error.ofRev2 R2Error.message]; cbv zeta;
    rewrite ?append_assoc; within_segment.
Qed.

Lemma message_test_phrases_witness :
  String_includes
    (R2Error.message
       (R2Error.ofRev2
          (R2BucketRev2.R2BucketNotFoundError op_get (Some "my-bucket"))))
    "not found" = true.
Proof.
  apply (message_test_phrases
           (R2BucketRev2.R2BucketNotFoundError op_get (Some "my-bucket"))).
  reflexivity.
Defined.
